(** * Genetic course scheduler (genetic_scheduler.py): a shallow embedding

    Conventions of the model:
    - Python [int]s are [Z]; a Python list is a Rocq [list].
    - Fitness is counted exactly in hundredths of a point: the source's
      [fitness -= 0.5] is [fitness - 50] here.  (The source accumulates
      binary floats; every weight is a multiple of 0.05, so this is the
      exact value the float accumulation approximates.)
    - A failing lookup (Python [IndexError] / [KeyError]) is [None].
    - A Python [dict] is an association list kept in insertion order
      ([dict_get]/[dict_set]), as CPython iterates dicts in that order. *)

From Stdlib Require Import String ZArith List Bool Lia QArith Qabs Lqa Permutation Sorted.
Import ListNotations.
Open Scope Z_scope.

(** ** Python helpers *)

Notation "'let?' x ':=' m 'in' k" :=
  (match m with Some x => k | None => None end)
  (at level 200, x name, k at level 200, only parsing).

(** [l[i]] on a Python list: negative indices count from the end. *)
Definition py_index {A} (l : list A) (i : Z) : option A :=
  let n := Z.of_nat (length l) in
  if (0 <=? i) && (i <? n) then nth_error l (Z.to_nat i)
  else if (- n <=? i) && (i <? 0) then nth_error l (Z.to_nat (n + i))
  else None.

(** [enumerate(l)]. *)
Fixpoint enumerate_from {A} (n : Z) (l : list A) : list (Z * A) :=
  match l with
  | [] => []
  | x :: t => (n, x) :: enumerate_from (n + 1) t
  end.
Definition enumerate {A} (l : list A) := enumerate_from 0 l.

Definition dict (K V : Type) := list (K * V).

Section Dict.
Context {K V : Type} (keqb : K -> K -> bool).

  (** [d[k]] ([None] is a [KeyError]). *)
Fixpoint dict_get (k : K) (d : dict K V) : option V :=
    match d with
    | [] => None
    | (k', v) :: t => if keqb k k' then Some v else dict_get k t
    end.

  (** [d[k] = v]: an existing key keeps its position, a new key goes last. *)
Fixpoint dict_set (k : K) (v : V) (d : dict K V) : dict K V :=
    match d with
    | [] => [(k, v)]
    | (k', v') :: t => if keqb k k' then (k', v) :: t else (k', v') :: dict_set k v t
    end.
End Dict.

Definition pair_eqb (a b : Z * Z) : bool :=
  (fst a =? fst b) && (snd a =? snd b).

(** A fold whose step may raise. *)
Fixpoint fold_opt {A B} (step : B -> A -> option B) (l : list A) (acc : B) : option B :=
  match l with
  | [] => Some acc
  | x :: t => match step acc x with Some acc' => fold_opt step t acc' | None => None end
  end.

(** [sorted(l)] on a list of ints. *)
Fixpoint insert_Z (x : Z) (l : list Z) : list Z :=
  match l with
  | [] => [x]
  | y :: t => if x <=? y then x :: y :: t else y :: insert_Z x t
  end.
Fixpoint sorted_Z (l : list Z) : list Z :=
  match l with [] => [] | x :: t => insert_Z x (sorted_Z t) end.

(** [(l[i], l[i+1]) for i in range(len(l) - 1)]. *)
Fixpoint adjacent_pairs (l : list Z) : list (Z * Z) :=
  match l with
  | x :: ((y :: _) as t) => (x, y) :: adjacent_pairs t
  | _ => []
  end.

Definition str_in (s : string) (l : list string) : bool := existsb (String.eqb s) l.

(** ** Domain catalogs *)

Module Activity.
Record t := mk { name : string; enrollment : Z;
                   preferred_facilitators : list string;
                   other_facilitators : list string }.
End Activity.

Module Room.
Record t := mk { name : string; capacity : Z }.
End Room.

Definition ACTIVITIES : list Activity.t := [
  Activity.mk "SLA101A" 40 ["Glen"; "Lock"; "Banks"] ["Numen"; "Richards"; "Shaw"; "Singer"];
  Activity.mk "SLA101B" 35 ["Glen"; "Lock"; "Banks"] ["Numen"; "Richards"; "Shaw"; "Singer"];
  Activity.mk "SLA191A" 45 ["Glen"; "Lock"; "Banks"] ["Numen"; "Richards"; "Shaw"; "Singer"];
  Activity.mk "SLA191B" 40 ["Glen"; "Lock"; "Banks"] ["Numen"; "Richards"; "Shaw"; "Singer"];
  Activity.mk "SLA201" 60 ["Glen"; "Banks"; "Zeldin"; "Lock"; "Singer"] ["Richards"; "Uther"; "Shaw"];
  Activity.mk "SLA291" 50 ["Glen"; "Banks"; "Zeldin"; "Lock"; "Singer"] ["Richards"; "Uther"; "Shaw"];
  Activity.mk "SLA303" 25 ["Glen"; "Zeldin"] ["Banks"];
  Activity.mk "SLA304" 20 ["Singer"; "Uther"] ["Richards"];
  Activity.mk "SLA394" 15 ["Tyler"; "Singer"] ["Richards"; "Zeldin"];
  Activity.mk "SLA449" 30 ["Tyler"; "Zeldin"; "Uther"] ["Zeldin"; "Shaw"];
  Activity.mk "SLA451" 90 ["Lock"; "Banks"; "Zeldin"] ["Tyler"; "Singer"; "Shaw"; "Glen"]
]%string.

Definition ROOMS : list Room.t := [
  Room.mk "Beach 201" 18; Room.mk "Beach 301" 25; Room.mk "Frank 119" 95;
  Room.mk "Loft 206" 55; Room.mk "Loft 310" 48; Room.mk "James 325" 110;
  Room.mk "Roman 201" 40; Room.mk "Roman 216" 80; Room.mk "Slater 003" 32
]%string.

Definition TIMES : list string := ["10 AM"; "11 AM"; "12 PM"; "1 PM"; "2 PM"; "3 PM"]%string.

Definition FACILITATORS : list string :=
  ["Lock"; "Glen"; "Banks"; "Richards"; "Shaw"; "Singer"; "Uther"; "Tyler"; "Numen"; "Zeldin"]%string.

(** ** Chromosome *)

(** An assignment tuple [(activity_idx, room_idx, time_idx, facilitator_idx)]. *)
Definition assignment := (Z * Z * Z * Z)%type.

Record Schedule := { assignments : list assignment }.

(** [Schedule(n)]: [n] copies of [(0, 0, 0, 0)]. *)
Definition Schedule_init (num_activities : nat) : Schedule :=
  {| assignments := repeat (0, 0, 0, 0) num_activities |}.

(** ** Lookup structures (built by identical code in [calculate_fitness]
    and [get_constraint_violations]) *)

Record Lookups := {
  time_room_activities : dict (Z * Z) (list Z);
  time_facilitator_activities : dict (Z * Z) (list Z);
  facilitator_total_activities : dict Z Z;
  facilitator_time_slots : dict Z (list Z)
}.

(** [if key not in d: d[key] = []] followed by [d[key].append(x)]. *)
Definition dict_append {K} (keqb : K -> K -> bool) (k : K) (x : Z) (d : dict K (list Z)) :=
  let l := match dict_get keqb k d with Some l => l | None => [] end in
  dict_set keqb k (l ++ [x]) d.

Definition lookups_step (lk : Lookups) (p : Z * assignment) : Lookups :=
  let '(activity_idx, (_, room_idx, time_idx, facilitator_idx)) := p in
  let tra := dict_append pair_eqb (time_idx, room_idx) activity_idx (time_room_activities lk) in
  let tfa := dict_append pair_eqb (time_idx, facilitator_idx) activity_idx
               (time_facilitator_activities lk) in
  let total := match dict_get Z.eqb facilitator_idx (facilitator_total_activities lk) with
               | Some c => c | None => 0 end in
  let fta := dict_set Z.eqb facilitator_idx (total + 1) (facilitator_total_activities lk) in
  let slots := match dict_get Z.eqb facilitator_idx (facilitator_time_slots lk) with
               | Some l => l | None => [] end in
  let fts0 := match dict_get Z.eqb facilitator_idx (facilitator_time_slots lk) with
              | Some _ => facilitator_time_slots lk
              | None => dict_set Z.eqb facilitator_idx [] (facilitator_time_slots lk) end in
  let fts := if existsb (Z.eqb time_idx) slots then fts0
             else dict_set Z.eqb facilitator_idx (slots ++ [time_idx]) fts0 in
  {| time_room_activities := tra; time_facilitator_activities := tfa;
     facilitator_total_activities := fta; facilitator_time_slots := fts |}.

Definition empty_lookups : Lookups :=
  {| time_room_activities := []; time_facilitator_activities := [];
     facilitator_total_activities := []; facilitator_time_slots := [] |}.

Definition build_lookups (s : Schedule) : Lookups :=
  fold_left lookups_step (enumerate (assignments s)) empty_lookups.

(** ** [calculate_fitness] *)

(** [name.startswith("Roman") or name.startswith("Beach")]. *)
Definition in_roman_beach (room_name : string) : bool :=
  String.prefix "Roman" room_name || String.prefix "Beach" room_name.

(** Facilitator total load (lines 165-172). *)
Definition total_load_rule (facilitator : string) (total_load : Z) (fitness : Z) : Z :=
  if 4 <? total_load then fitness - 50
  else if total_load <? 3 then
    (* Exception for Dr. Tyler *)
    if negb (String.eqb facilitator "Tyler") || (2 <=? total_load) then fitness - 40
    else fitness
  else fitness.

(** One iteration of the per-activity loop (lines 130-172).
    [room.capacity > 1.5 * activity.enrollment] is [2 * capacity > 3 * enrollment]. *)
Definition fitness_activity (lk : Lookups) (fitness : Z) (p : Z * assignment) : option Z :=
  let '(activity_idx, (_, room_idx, time_idx, facilitator_idx)) := p in
  let? activity := py_index ACTIVITIES activity_idx in
  let? room := py_index ROOMS room_idx in
  let? facilitator := py_index FACILITATORS facilitator_idx in
  let? tr := dict_get pair_eqb (time_idx, room_idx) (time_room_activities lk) in
  let fitness := if (1 <? Z.of_nat (length tr)) then fitness - 50 else fitness in
  let fitness :=
    if Room.capacity room <? Activity.enrollment activity then fitness - 50
    else if 3 * Activity.enrollment activity <? Room.capacity room then fitness - 40
    else if 3 * Activity.enrollment activity <? 2 * Room.capacity room then fitness - 20
    else fitness + 30 in
  let fitness :=
    if str_in facilitator (Activity.preferred_facilitators activity) then fitness + 50
    else if str_in facilitator (Activity.other_facilitators activity) then fitness + 20
    else fitness - 10 in
  let? tf := dict_get pair_eqb (time_idx, facilitator_idx) (time_facilitator_activities lk) in
  let fitness :=
    if Z.of_nat (length tf) =? 1 then fitness + 20
    else if 1 <? Z.of_nat (length tf) then fitness - 20
    else fitness in
  let? total_load := dict_get Z.eqb facilitator_idx (facilitator_total_activities lk) in
  Some (total_load_rule facilitator total_load fitness).

(** [[act_idx for act_idx, (_, r, t, f) in enumerate(schedule.assignments)
      if t == time and f == facilitator_idx]]. *)
Definition activities_at (s : Schedule) (time facilitator_idx : Z) : list Z :=
  map fst (filter (fun '(_, (_, _, t, f)) => (t =? time) && (f =? facilitator_idx))
                  (enumerate (assignments s))).

(** [ROOMS[schedule.assignments[act_idx][1]].name] classified. *)
Definition act_in_roman_beach (s : Schedule) (act_idx : Z) : option bool :=
  let? a := py_index (assignments s) act_idx in
  let '(_, room_idx, _, _) := a in
  let? room := py_index ROOMS room_idx in
  Some (in_roman_beach (Room.name room)).

(** Inner double loop over [activities_at_time1 x activities_at_time2]. *)
Definition building_pair_fitness (s : Schedule) (fitness : Z) (ij : Z * Z) : option Z :=
  let? b1 := act_in_roman_beach s (fst ij) in
  let? b2 := act_in_roman_beach s (snd ij) in
  Some (if negb (Bool.eqb b1 b2) then fitness - 40 else fitness).

Definition all_pairs (l1 l2 : list Z) : list (Z * Z) :=
  flat_map (fun i => map (fun j => (i, j)) l2) l1.

(** One adjacent pair [(sorted_times[i], sorted_times[i+1])] (lines 177-203). *)
Definition consecutive_fitness (s : Schedule) (facilitator_idx : Z) (fitness : Z)
    (tt : Z * Z) : option Z :=
  let '(time1, time2) := tt in
  if time2 - time1 =? 1 then
    let activities_at_time1 := activities_at s time1 facilitator_idx in
    let activities_at_time2 := activities_at s time2 facilitator_idx in
    fold_opt (building_pair_fitness s)
             (all_pairs activities_at_time1 activities_at_time2) (fitness + 50)
  else Some fitness.

(** One item of [facilitator_time_slots.items()] (lines 175-203). *)
Definition facilitator_slots_fitness (s : Schedule) (fitness : Z) (it : Z * list Z) : option Z :=
  let '(facilitator_idx, time_slots) := it in
  fold_opt (consecutive_fitness s facilitator_idx) (adjacent_pairs (sorted_Z time_slots)) fitness.

(** [next(i for i, a in enumerate(ACTIVITIES) if a.name == nm)]
    ([None] is [StopIteration]). *)
Definition activity_index (nm : string) : option Z :=
  option_map fst (find (fun ia => String.eqb (Activity.name (snd ia)) nm) (enumerate ACTIVITIES)).

(** [schedule.assignments[idx]] as [(room, time)]. *)
Definition room_time_of (s : Schedule) (idx : Z) : option (Z * Z) :=
  let? a := py_index (assignments s) idx in
  let '(_, room_idx, time_idx, _) := a in
  Some (room_idx, time_idx).

(** One SLA 191 / SLA 101 combination (lines 248-264). Each argument is [(time, room)]. *)
Definition sla_combo_fitness (fitness : Z) (c : (Z * Z) * (Z * Z)) : option Z :=
  let '((sla191_time, sla191_room), (sla101_time, sla101_room)) := c in
  let time_diff := Z.abs (sla191_time - sla101_time) in
  if time_diff =? 1 then
    let fitness := fitness + 50 in
    let? r191 := py_index ROOMS sla191_room in
    let? r101 := py_index ROOMS sla101_room in
    Some (if negb (Bool.eqb (in_roman_beach (Room.name r191)) (in_roman_beach (Room.name r101)))
          then fitness - 40 else fitness)
  else if time_diff =? 2 then Some (fitness + 25)
  else if time_diff =? 0 then Some (fitness - 25)
  else Some fitness.

(** The four SLA 101 and 191 sections: [(time, room)] of each, in the
    order 101A, 101B, 191A, 191B. *)
Definition sla_sections (s : Schedule) : option ((Z * Z) * (Z * Z) * (Z * Z) * (Z * Z)) :=
  let? sla101a_idx := activity_index "SLA101A" in
  let? sla101b_idx := activity_index "SLA101B" in
  let? sla191a_idx := activity_index "SLA191A" in
  let? sla191b_idx := activity_index "SLA191B" in
  let? rt101a := room_time_of s sla101a_idx in
  let? rt101b := room_time_of s sla101b_idx in
  let? rt191a := room_time_of s sla191a_idx in
  let? rt191b := room_time_of s sla191b_idx in
  let swap (rt : Z * Z) := (snd rt, fst rt) in
  Some (swap rt101a, swap rt101b, swap rt191a, swap rt191b).

(** The combinations in loop order: 191 outer, 101 inner. *)
Definition sla_combos (tr101a tr101b tr191a tr191b : Z * Z) : list ((Z * Z) * (Z * Z)) :=
  [(tr191a, tr101a); (tr191a, tr101b); (tr191b, tr101a); (tr191b, tr101b)].

Definition sla_fitness (s : Schedule) (fitness : Z) : option Z :=
  let? secs := sla_sections s in
  let '(tr101a, tr101b, tr191a, tr191b) := secs in
  let time_101a := fst tr101a in let time_101b := fst tr101b in
  let time_191a := fst tr191a in let time_191b := fst tr191b in
  let fitness := if 4 <? Z.abs (time_101a - time_101b) then fitness + 50 else fitness in
  let fitness := if time_101a =? time_101b then fitness - 50 else fitness in
  let fitness := if 4 <? Z.abs (time_191a - time_191b) then fitness + 50 else fitness in
  let fitness := if time_191a =? time_191b then fitness - 50 else fitness in
  fold_opt sla_combo_fitness (sla_combos tr101a tr101b tr191a tr191b) fitness.

Definition calculate_fitness (s : Schedule) : option Z :=
  let lk := build_lookups s in
  let? fitness := fold_opt (fitness_activity lk) (enumerate (assignments s)) 0 in
  let? fitness := fold_opt (facilitator_slots_fitness s) (facilitator_time_slots lk) fitness in
  sla_fitness s fitness.

(** ** [get_constraint_violations] *)

(** The 22 literal keys of the [violations] dict; the dict always holds
    exactly these keys, so it is a total map [vkey -> Z]. *)
Inductive vkey :=
| room_conflicts | room_too_small | room_too_large_1_5x | room_too_large_3x | room_good_fit
| facilitator_preferred | facilitator_other | facilitator_unlisted
| facilitator_single_slot | facilitator_double_booked
| facilitator_overload_4plus | facilitator_underload_less3
| facilitator_consecutive_bonus | facilitator_consecutive_building_penalty
| sla101_sections_far_apart | sla101_sections_same_time
| sla191_sections_far_apart | sla191_sections_same_time
| sla101_191_consecutive | sla101_191_consecutive_building_penalty
| sla101_191_separated_1hr | sla101_191_same_time.

Definition vkey_name (k : vkey) : string :=
  match k with
  | room_conflicts => "room_conflicts" | room_too_small => "room_too_small"
  | room_too_large_1_5x => "room_too_large_1.5x" | room_too_large_3x => "room_too_large_3x"
  | room_good_fit => "room_good_fit" | facilitator_preferred => "facilitator_preferred"
  | facilitator_other => "facilitator_other" | facilitator_unlisted => "facilitator_unlisted"
  | facilitator_single_slot => "facilitator_single_slot"
  | facilitator_double_booked => "facilitator_double_booked"
  | facilitator_overload_4plus => "facilitator_overload_4plus"
  | facilitator_underload_less3 => "facilitator_underload_less3"
  | facilitator_consecutive_bonus => "facilitator_consecutive_bonus"
  | facilitator_consecutive_building_penalty => "facilitator_consecutive_building_penalty"
  | sla101_sections_far_apart => "sla101_sections_far_apart"
  | sla101_sections_same_time => "sla101_sections_same_time"
  | sla191_sections_far_apart => "sla191_sections_far_apart"
  | sla191_sections_same_time => "sla191_sections_same_time"
  | sla101_191_consecutive => "sla101_191_consecutive"
  | sla101_191_consecutive_building_penalty => "sla101_191_consecutive_building_penalty"
  | sla101_191_separated_1hr => "sla101_191_separated_1hr"
  | sla101_191_same_time => "sla101_191_same_time"
  end%string.

Definition vkey_eqb (a b : vkey) : bool := String.eqb (vkey_name a) (vkey_name b).

Definition violations := vkey -> Z.

Definition violations0 : violations := fun _ => 0.

(** [violations[k] += 1]. *)
Definition incr (k : vkey) (v : violations) : violations :=
  fun k' => if vkey_eqb k k' then v k' + 1 else v k'.

Definition total_load_count (facilitator : string) (total_load : Z) (v : violations) : violations :=
  if 4 <? total_load then incr facilitator_overload_4plus v
  else if total_load <? 3 then
    if negb (String.eqb facilitator "Tyler") || (2 <=? total_load)
    then incr facilitator_underload_less3 v
    else v
  else v.

(** One iteration of the per-activity loop (lines 323-359). *)
Definition violations_activity (lk : Lookups) (v : violations) (p : Z * assignment)
    : option violations :=
  let '(activity_idx, (_, room_idx, time_idx, facilitator_idx)) := p in
  let? activity := py_index ACTIVITIES activity_idx in
  let? room := py_index ROOMS room_idx in
  let? facilitator := py_index FACILITATORS facilitator_idx in
  let? tr := dict_get pair_eqb (time_idx, room_idx) (time_room_activities lk) in
  let v := if (1 <? Z.of_nat (length tr)) then incr room_conflicts v else v in
  let v :=
    if Room.capacity room <? Activity.enrollment activity then incr room_too_small v
    else if 3 * Activity.enrollment activity <? Room.capacity room then incr room_too_large_3x v
    else if 3 * Activity.enrollment activity <? 2 * Room.capacity room
    then incr room_too_large_1_5x v
    else incr room_good_fit v in
  let v :=
    if str_in facilitator (Activity.preferred_facilitators activity)
    then incr facilitator_preferred v
    else if str_in facilitator (Activity.other_facilitators activity)
    then incr facilitator_other v
    else incr facilitator_unlisted v in
  let? tf := dict_get pair_eqb (time_idx, facilitator_idx) (time_facilitator_activities lk) in
  let v :=
    if Z.of_nat (length tf) =? 1 then incr facilitator_single_slot v
    else if 1 <? Z.of_nat (length tf) then incr facilitator_double_booked v
    else v in
  let? total_load := dict_get Z.eqb facilitator_idx (facilitator_total_activities lk) in
  Some (total_load_count facilitator total_load v).

Definition building_pair_violations (s : Schedule) (v : violations) (ij : Z * Z)
    : option violations :=
  let? b1 := act_in_roman_beach s (fst ij) in
  let? b2 := act_in_roman_beach s (snd ij) in
  Some (if negb (Bool.eqb b1 b2) then incr facilitator_consecutive_building_penalty v else v).

Definition consecutive_violations (s : Schedule) (facilitator_idx : Z) (v : violations)
    (tt : Z * Z) : option violations :=
  let '(time1, time2) := tt in
  if time2 - time1 =? 1 then
    let v := incr facilitator_consecutive_bonus v in
    let activities_at_time1 := activities_at s time1 facilitator_idx in
    let activities_at_time2 := activities_at s time2 facilitator_idx in
    fold_opt (building_pair_violations s) (all_pairs activities_at_time1 activities_at_time2) v
  else Some v.

Definition facilitator_slots_violations (s : Schedule) (v : violations) (it : Z * list Z)
    : option violations :=
  let '(facilitator_idx, time_slots) := it in
  fold_opt (consecutive_violations s facilitator_idx) (adjacent_pairs (sorted_Z time_slots)) v.

Definition sla_combo_violations (v : violations) (c : (Z * Z) * (Z * Z)) : option violations :=
  let '((sla191_time, sla191_room), (sla101_time, sla101_room)) := c in
  let time_diff := Z.abs (sla191_time - sla101_time) in
  if time_diff =? 1 then
    let v := incr sla101_191_consecutive v in
    let? r191 := py_index ROOMS sla191_room in
    let? r101 := py_index ROOMS sla101_room in
    Some (if negb (Bool.eqb (in_roman_beach (Room.name r191)) (in_roman_beach (Room.name r101)))
          then incr sla101_191_consecutive_building_penalty v else v)
  else if time_diff =? 2 then Some (incr sla101_191_separated_1hr v)
  else if time_diff =? 0 then Some (incr sla101_191_same_time v)
  else Some v.

Definition sla_violations (s : Schedule) (v : violations) : option violations :=
  let? secs := sla_sections s in
  let '(tr101a, tr101b, tr191a, tr191b) := secs in
  let time_101a := fst tr101a in let time_101b := fst tr101b in
  let time_191a := fst tr191a in let time_191b := fst tr191b in
  let v := if 4 <? Z.abs (time_101a - time_101b) then incr sla101_sections_far_apart v else v in
  let v := if time_101a =? time_101b then incr sla101_sections_same_time v else v in
  let v := if 4 <? Z.abs (time_191a - time_191b) then incr sla191_sections_far_apart v else v in
  let v := if time_191a =? time_191b then incr sla191_sections_same_time v else v in
  fold_opt sla_combo_violations (sla_combos tr101a tr101b tr191a tr191b) v.

Definition get_constraint_violations (s : Schedule) : option violations :=
  let lk := build_lookups s in
  let? v := fold_opt (violations_activity lk) (enumerate (assignments s)) violations0 in
  let? v := fold_opt (facilitator_slots_violations s) (facilitator_time_slots lk) v in
  sla_violations s v.

(** The weighted sum of the counts, with the weights of the fitness rules
    (in hundredths). *)
Definition weighted (v : violations) : Z :=
  - 50 * v room_conflicts - 50 * v room_too_small - 40 * v room_too_large_3x
  - 20 * v room_too_large_1_5x + 30 * v room_good_fit
  + 50 * v facilitator_preferred + 20 * v facilitator_other - 10 * v facilitator_unlisted
  + 20 * v facilitator_single_slot - 20 * v facilitator_double_booked
  - 50 * v facilitator_overload_4plus - 40 * v facilitator_underload_less3
  + 50 * v facilitator_consecutive_bonus - 40 * v facilitator_consecutive_building_penalty
  + 50 * v sla101_sections_far_apart - 50 * v sla101_sections_same_time
  + 50 * v sla191_sections_far_apart - 50 * v sla191_sections_same_time
  + 50 * v sla101_191_consecutive - 40 * v sla101_191_consecutive_building_penalty
  + 25 * v sla101_191_separated_1hr - 25 * v sla101_191_same_time.

(** The weight of one count in [weighted]. *)
Definition weight_of (k : vkey) : Z :=
  match k with
  | room_conflicts => -50 | room_too_small => -50 | room_too_large_3x => -40
  | room_too_large_1_5x => -20 | room_good_fit => 30
  | facilitator_preferred => 50 | facilitator_other => 20 | facilitator_unlisted => -10
  | facilitator_single_slot => 20 | facilitator_double_booked => -20
  | facilitator_overload_4plus => -50 | facilitator_underload_less3 => -40
  | facilitator_consecutive_bonus => 50 | facilitator_consecutive_building_penalty => -40
  | sla101_sections_far_apart => 50 | sla101_sections_same_time => -50
  | sla191_sections_far_apart => 50 | sla191_sections_same_time => -50
  | sla101_191_consecutive => 50 | sla101_191_consecutive_building_penalty => -40
  | sla101_191_separated_1hr => 25 | sla101_191_same_time => -25
  end.

(** The [(room, time, facilitator)] part of an assignment tuple. *)
Definition rtf (a : assignment) : Z * Z * Z :=
  let '(_, r, t, f) := a in (r, t, f).

(** The schedule with every stored activity-index field set to 0. *)
Definition clear_first (a : assignment) : assignment :=
  let '(_, r, t, f) := a in (0, r, t, f).
Definition normalize (s : Schedule) : Schedule :=
  {| assignments := map clear_first (assignments s) |}.

(** A schedule with Tyler (facilitator 7) on SLA101A and SLA101B and the
    nine other activities split 3/3/3 between Lock, Glen and Banks. *)
Definition tyler_two_schedule : Schedule :=
  {| assignments :=
       [(0, 0, 0, 7); (1, 1, 1, 7); (2, 2, 0, 0); (3, 3, 1, 0); (4, 4, 2, 0);
        (5, 5, 0, 1); (6, 6, 1, 1); (7, 7, 2, 1); (8, 8, 3, 2); (9, 0, 4, 2);
        (10, 1, 5, 2)] |}.

(** ** Random source

    The module-level [numpy.random.Generator] is modelled as an explicit
    state threaded through every call: a stream of raw draws, one consumed
    per call.  Each call maps its raw draw onto the whole result range of
    the numpy call, so every result numpy can return arises from some
    stream. *)

Definition Rng := nat -> Z.

Definition rng_next (g : Rng) : Z * Rng := (g O, fun n => g (S n)).

(** [rng.integers(lo, hi)]: a value in [lo, hi).  Every call site has
    constant bounds with [lo < hi]. *)
Definition rng_integers (lo hi : Z) (g : Rng) : Z * Rng :=
  let '(d, g') := rng_next g in (lo + d mod (hi - lo), g').

(** [rng.random()]: a multiple of 2^-53 in [0, 1). *)
Definition rng_random (g : Rng) : Q * Rng :=
  let '(d, g') := rng_next g in (Qmake (d mod 2 ^ 53) (2 ^ 53)%positive, g').

(** [l.pop(i)] on a list. *)
Fixpoint list_pop {A} (i : nat) (l : list A) : option (A * list A) :=
  match l, i with
  | [], _ => None
  | x :: t, O => Some (x, t)
  | x :: t, S i' => match list_pop i' t with
                   | Some (y, t') => Some (y, x :: t')
                   | None => None
                   end
  end.

(** Drawing [k] of the remaining indices, one uniform pick per draw. *)
Fixpoint choice_loop (k : nat) (remaining : list Z) (g : Rng) : option (list Z * Rng) :=
  match k with
  | O => Some ([], g)
  | S k' =>
      let '(d, g1) := rng_next g in
      let n := length remaining in
      let? pr := list_pop (Z.to_nat (d mod Z.of_nat n)) remaining in
      let '(x, rest) := pr in
      let? r := choice_loop k' rest g1 in
      let '(xs, g2) := r in
      Some (x :: xs, g2)
  end.

(** [rng.choice(n, size=k, replace=False)]: [k] distinct indices of
    [range(n)]; a [ValueError] when [k > n]. *)
Definition rng_choice (n k : nat) (g : Rng) : option (list Z * Rng) :=
  if Nat.ltb n k then None
  else choice_loop k (map Z.of_nat (seq 0 n)) g.

(** ** Population operators *)

(** The GA parameters (module-level constants of the source). *)
Record Config := {
  POPULATION_SIZE : nat;
  INITIAL_MUTATION_RATE : Q;
  MIN_GENERATIONS : Z;
  IMPROVEMENT_THRESHOLD : Q;
  TOURNAMENT_SIZE : nat
}.

Definition default_config : Config := {|
  POPULATION_SIZE := 500;
  INITIAL_MUTATION_RATE := 1 # 100;
  MIN_GENERATIONS := 100;
  IMPROVEMENT_THRESHOLD := 1 # 100;
  TOURNAMENT_SIZE := 5
|}.

Definition num_activities : Z := Z.of_nat (length ACTIVITIES).
Definition num_rooms : Z := Z.of_nat (length ROOMS).
Definition num_times : Z := Z.of_nat (length TIMES).
Definition num_facilitators : Z := Z.of_nat (length FACILITATORS).

(** Random gene [i] of [create_random_schedule]. *)
Definition random_gene (i : Z) (g : Rng) : assignment * Rng :=
  let '(room_idx, g1) := rng_integers 0 num_rooms g in
  let '(time_idx, g2) := rng_integers 0 num_times g1 in
  let '(facilitator_idx, g3) := rng_integers 0 num_facilitators g2 in
  ((i, room_idx, time_idx, facilitator_idx), g3).

Fixpoint random_genes (idxs : list Z) (g : Rng) : list assignment * Rng :=
  match idxs with
  | [] => ([], g)
  | i :: t =>
      let '(a, g1) := random_gene i g in
      let '(rest, g2) := random_genes t g1 in
      (a :: rest, g2)
  end.

(** [create_random_schedule()]: the loop writes [schedule.assignments[i]]
    for every [i] of [range(len(ACTIVITIES))] of the fresh [Schedule], so the
    result is the list of generated genes, in order. *)
Definition create_random_schedule (g : Rng) : Schedule * Rng :=
  let '(genes, g') := random_genes (map Z.of_nat (seq 0 (length ACTIVITIES))) g in
  ({| assignments := genes |}, g').

(** [x < y] on rationals. *)
Definition Qltb (x y : Q) : bool := negb (Qle_bool y x).

(** The body of [mutate]'s loop on gene [mutated.assignments[i]]. *)
Definition mutate_gene (mutation_rate : Q) (a : assignment) (g : Rng) : assignment * Rng :=
  let '(x, g1) := rng_random g in
  if Qltb x mutation_rate then
    let '(mutation_type, g2) := rng_integers 0 3 g1 in
    let '(activity_idx, room_idx, time_idx, facilitator_idx) := a in
    if mutation_type =? 0 then
      let '(room_idx, g3) := rng_integers 0 num_rooms g2 in
      ((activity_idx, room_idx, time_idx, facilitator_idx), g3)
    else if mutation_type =? 1 then
      let '(time_idx, g3) := rng_integers 0 num_times g2 in
      ((activity_idx, room_idx, time_idx, facilitator_idx), g3)
    else
      let '(facilitator_idx, g3) := rng_integers 0 num_facilitators g2 in
      ((activity_idx, room_idx, time_idx, facilitator_idx), g3)
  else (a, g1).

Fixpoint mutate_genes (mutation_rate : Q) (genes : list assignment) (g : Rng)
    : list assignment * Rng :=
  match genes with
  | [] => ([], g)
  | a :: t =>
      let '(a', g1) := mutate_gene mutation_rate a g in
      let '(rest, g2) := mutate_genes mutation_rate t g1 in
      (a' :: rest, g2)
  end.

(** [mutate(schedule, mutation_rate)]: [mutated.assignments] is a copy of
    the input's list; step [i] reads and rewrites only position [i], so the
    loop maps [mutate_gene] over the copy, left to right. *)
Definition mutate (schedule : Schedule) (mutation_rate : Q) (g : Rng) : Schedule * Rng :=
  let '(genes, g') := mutate_genes mutation_rate (assignments schedule) g in
  ({| assignments := genes |}, g').

(** Single-point crossover at a given point. *)
Definition crossover_at (crossover_point : nat) (parent1 parent2 : Schedule) : Schedule * Schedule :=
  ({| assignments := firstn crossover_point (assignments parent1)
                     ++ skipn crossover_point (assignments parent2) |},
   {| assignments := firstn crossover_point (assignments parent2)
                     ++ skipn crossover_point (assignments parent1) |}).

(** [crossover(parent1, parent2)]. *)
Definition crossover (parent1 parent2 : Schedule) (g : Rng) : (Schedule * Schedule) * Rng :=
  let '(crossover_point, g') := rng_integers 1 num_activities g in
  (crossover_at (Z.to_nat crossover_point) parent1 parent2, g').

(** [max(l, key=key)]: the first element with the largest key; a
    [ValueError] on an empty list. *)
Fixpoint py_max_key_from (key : Z -> option Z) (best : Z) (best_key : Z) (l : list Z)
    : option Z :=
  match l with
  | [] => Some best
  | x :: t =>
      let? k := key x in
      if best_key <? k then py_max_key_from key x k t else py_max_key_from key best best_key t
  end.

Definition py_max_key (key : Z -> option Z) (l : list Z) : option Z :=
  match l with
  | [] => None
  | x :: t => let? k := key x in py_max_key_from key x k t
  end.

Section GA.
Variable cfg : Config.

  (** [tournament_selection(population, fitness_scores)]. *)
Definition tournament_selection (population : list Schedule) (fitness_scores : list Z)
      (g : Rng) : option (Schedule * Rng) :=
    let? r := rng_choice (length population) (TOURNAMENT_SIZE cfg) g in
    let '(tournament_indices, g') := r in
    let? best_idx := py_max_key (fun i => py_index fitness_scores i) tournament_indices in
    let? s := py_index population best_idx in
    Some (s, g').
End GA.

(** ** Evolution engine *)

(** [np.argsort(scores)]: the indices ordered by ascending score.  This is
    a stable order; numpy's default sort may order tied scores differently,
    which no statement below depends on. *)
Fixpoint insert_by_score (p : Z * Z) (l : list (Z * Z)) : list (Z * Z) :=
  match l with
  | [] => [p]
  | q :: t => if snd p <=? snd q then p :: q :: t else q :: insert_by_score p t
  end.
Fixpoint sort_by_score (l : list (Z * Z)) : list (Z * Z) :=
  match l with [] => [] | p :: t => insert_by_score p (sort_by_score t) end.
Definition argsort (scores : list Z) : list Z := map fst (sort_by_score (enumerate scores)).

(** [l[start:]] with Python's clamping of negative starts. *)
Definition py_slice_from {A} (start : Z) (l : list A) : list A :=
  let n := Z.of_nat (length l) in
  let s := if start <? 0 then Z.max 0 (n + start) else Z.min start n in
  skipn (Z.to_nat s) l.

(** [[f(x) for x in l]] where [f] may raise. *)
Fixpoint map_opt {A B} (f : A -> option B) (l : list A) : option (list B) :=
  match l with
  | [] => Some []
  | x :: t => let? y := f x in let? ys := map_opt f t in Some (y :: ys)
  end.

(** [max(l)] and [min(l)] ([ValueError] on an empty list). *)
Definition py_max (l : list Z) : option Z :=
  match l with [] => None | x :: t => Some (fold_left Z.max t x) end.
Definition py_min (l : list Z) : option Z :=
  match l with [] => None | x :: t => Some (fold_left Z.min t x) end.

(** [np.mean(fitness_scores)], in points (the scores are in hundredths). *)
Definition mean_points (l : list Z) : Q :=
  inject_Z (fold_left Z.add l 0) / inject_Z (100 * Z.of_nat (length l)).

Record GAState := {
  population : list Schedule;
  generation : Z;
  mutation_rate : Q;
  (** [None] is the initial [float('-inf')]. *)
  previous_avg_fitness : option Q;
  best_fitness_history : list Z;
  avg_fitness_history : list Q;
  worst_fitness_history : list Z;
  generation_history : list Z;
  rng : Rng
}.

(** How one pass of [while True] ends. *)
Inductive Outcome :=
| OConverged (st : GAState)     (* [break] at the convergence check *)
| OLimit (st : GAState)         (* [break] at the safety limit *)
| OContinue (st : GAState).     (* next pass *)

Section Engine.
Variable cfg : Config.

Fixpoint random_population (k : nat) (g : Rng) : list Schedule * Rng :=
    match k with
    | O => ([], g)
    | S k' =>
        let '(s, g1) := create_random_schedule g in
        let '(rest, g2) := random_population k' g1 in
        (s :: rest, g2)
    end.

  (** The state entering [while True]. *)
Definition ga_init (g : Rng) : GAState :=
    let '(pop, g') := random_population (POPULATION_SIZE cfg) g in
    {| population := pop; generation := 0; mutation_rate := INITIAL_MUTATION_RATE cfg;
       previous_avg_fitness := None;
       best_fitness_history := []; avg_fitness_history := [];
       worst_fitness_history := []; generation_history := []; rng := g' |}.

  (** [while len(next_generation) < POPULATION_SIZE: ...], with
      [remaining = POPULATION_SIZE - len(next_generation)]. *)
Fixpoint breed (remaining : nat) (pop : list Schedule) (fitness_scores : list Z)
      (rate : Q) (next_generation : list Schedule) (g : Rng)
      : option (list Schedule * Rng) :=
    match remaining with
    | O => Some (next_generation, g)
    | S remaining' =>
        let? r1 := tournament_selection cfg pop fitness_scores g in
        let '(parent1, g1) := r1 in
        let? r2 := tournament_selection cfg pop fitness_scores g1 in
        let '(parent2, g2) := r2 in
        let '(children, g3) := crossover parent1 parent2 g2 in
        let '(child1, child2) := children in
        let '(child1, g4) := mutate child1 rate g3 in
        let '(child2, g5) := mutate child2 rate g4 in
        let next_generation := next_generation ++ [child1] in
        match remaining' with
        | O => Some (next_generation, g5)
        | S remaining'' => breed remaining'' pop fitness_scores rate
                                 (next_generation ++ [child2]) g5
        end
    end.

Definition improvement_of (generation : Z) (previous : option Q) (avg : Q) : Q :=
    if 0 <? generation then
      match previous with
      | Some p => if Qeq_bool p 0 then 0 else ((avg - p) / Qabs p) * 100
      | None => 0  (* unreachable: the previous average is set after pass 0 *)
      end
    else 0.

Definition converged (generation : Z) (improvement : Q) : bool :=
    (MIN_GENERATIONS cfg <=? generation) && Qltb improvement (IMPROVEMENT_THRESHOLD cfg)
    && Qle_bool 0 improvement.

Definition adapt_rate (generation : Z) (improvement rate : Q) : Q :=
    if (50 <? generation) && (generation mod 50 =? 0) then
      if Qltb improvement 2 && Qltb (1 # 10000) rate then rate / 2 else rate
    else rate.

  (** [elite_indices = np.argsort(fitness_scores)[-elite_count:]]. *)
Definition elite_indices (fitness_scores : list Z) : list Z :=
    let elite_count := Z.of_nat (Nat.div (POPULATION_SIZE cfg) 10) in
    py_slice_from (- elite_count) (argsort fitness_scores).

  (** One pass of the generational loop (lines 633-690). *)
Definition ga_iter (st : GAState) : option Outcome :=
    let? fitness_scores := map_opt calculate_fitness (population st) in
    let? best_fitness := py_max fitness_scores in
    let avg_fitness := mean_points fitness_scores in
    let? worst_fitness := py_min fitness_scores in
    let generation := generation st in
    let st := {| population := population st; generation := generation;
                 mutation_rate := mutation_rate st;
                 previous_avg_fitness := previous_avg_fitness st;
                 best_fitness_history := best_fitness_history st ++ [best_fitness];
                 avg_fitness_history := avg_fitness_history st ++ [avg_fitness];
                 worst_fitness_history := worst_fitness_history st ++ [worst_fitness];
                 generation_history := generation_history st ++ [generation];
                 rng := rng st |} in
    let improvement := improvement_of generation (previous_avg_fitness st) avg_fitness in
    if converged generation improvement then Some (OConverged st)
    else
      let rate := adapt_rate generation improvement (mutation_rate st) in
      let? elites := map_opt (py_index (population st)) (elite_indices fitness_scores) in
      let? r := breed (POPULATION_SIZE cfg - length elites) (population st) fitness_scores
                      rate elites (rng st) in
      let '(next_generation, g) := r in
      let st' := {| population := next_generation; generation := generation + 1;
                    mutation_rate := rate; previous_avg_fitness := Some avg_fitness;
                    best_fitness_history := best_fitness_history st;
                    avg_fitness_history := avg_fitness_history st;
                    worst_fitness_history := worst_fitness_history st;
                    generation_history := generation_history st; rng := g |} in
      if 1000 <=? generation + 1 then Some (OLimit st') else Some (OContinue st').

Inductive Stop := Converged | LimitReached.

  (** [while True] from a state to the state it breaks with. *)
Inductive ga_run : GAState -> GAState -> Stop -> Prop :=
  | run_converged st st' : ga_iter st = Some (OConverged st') -> ga_run st st' Converged
  | run_limit st st' : ga_iter st = Some (OLimit st') -> ga_run st st' LimitReached
  | run_continue st st' stf h :
      ga_iter st = Some (OContinue st') -> ga_run st' stf h -> ga_run st stf h.
End Engine.

(** ** Well-formed chromosomes *)

(** Each index of a gene lies within its catalog. *)
Definition gene_ok (a : assignment) : Prop :=
  let '(_, r, t, f) := a in
  0 <= r < num_rooms /\ 0 <= t < num_times /\ 0 <= f < num_facilitators.

(** One gene per activity, each within the catalogs. *)
Definition schedule_ok (s : Schedule) : Prop :=
  length (assignments s) = length ACTIVITIES /\ Forall gene_ok (assignments s).

(** A small configuration and population, for concrete runs. *)
Definition small_config : Config := {|
  POPULATION_SIZE := 12; INITIAL_MUTATION_RATE := 1 # 2; MIN_GENERATIONS := 100;
  IMPROVEMENT_THRESHOLD := 1 # 100; TOURNAMENT_SIZE := 3
|}.

Definition sample_rng : Rng := fun n => (Z.of_nat n * 7919 + 13) mod 104729.

Definition sample_population : list Schedule := fst (random_population 6 sample_rng).

(** [argsort]'s order: ascending score. *)
Definition score_le (p q : Z * Z) : Prop := snd p <= snd q.

(** The lookup dicts of [build_lookups] hold the keys of one gene [p]. *)
Definition has_keys (lk : Lookups) (p : Z * assignment) : Prop :=
  let '(_, (_, r, t, f)) := p in
  dict_get pair_eqb (t, r) (time_room_activities lk) <> None /\
  dict_get pair_eqb (t, f) (time_facilitator_activities lk) <> None /\
  dict_get Z.eqb f (facilitator_total_activities lk) <> None.

(** Module constants with a tournament larger than the population; the
    source checks none of its constants. *)
Definition oversized_tournament_config : Config := {|
  POPULATION_SIZE := 12; INITIAL_MUTATION_RATE := 1 # 2; MIN_GENERATIONS := 100;
  IMPROVEMENT_THRESHOLD := 1 # 100; TOURNAMENT_SIZE := 15
|}.

(** [np.argmax(l)]: the first index of a largest element ([ValueError] on
    an empty list). *)
Fixpoint argmax_from (i best_i best : Z) (l : list Z) : Z :=
  match l with
  | [] => best_i
  | x :: t => if best <? x then argmax_from (i + 1) i x t else argmax_from (i + 1) best_i best t
  end.

Definition np_argmax (l : list Z) : option Z :=
  match l with [] => None | x :: t => Some (argmax_from 1 0 x t) end.

(** What [run_genetic_algorithm] returns (lines 697-700, 733), from the
    state its loop breaks with; the reports it prints and writes are left
    out. *)
Definition final_result (st : GAState) : option (Schedule * Z) :=
  let? final_fitness_scores := map_opt calculate_fitness (population st) in
  let? best_idx := np_argmax final_fitness_scores in
  let? best_schedule := py_index (population st) best_idx in
  let? best_fitness_final := py_index final_fitness_scores best_idx in
  Some (best_schedule, best_fitness_final).

(** A configuration whose loop stops at the convergence check of the first
    pass (generation 0, improvement 0), for concrete runs. *)
Definition quick_config : Config := {|
  POPULATION_SIZE := 12; INITIAL_MUTATION_RATE := 1 # 2; MIN_GENERATIONS := 0;
  IMPROVEMENT_THRESHOLD := 1; TOURNAMENT_SIZE := 3
|}.

(** What holds of [best_fitness_history] at the start of every pass. *)
Definition best_history_inv (st : GAState) : Prop :=
  StronglySorted Z.le (best_fitness_history st) /\
  forall sc b, map_opt calculate_fitness (population st) = Some sc -> py_max sc = Some b ->
    Forall (fun y => y <= b) (best_fitness_history st).


(** A gene whose room and facilitator indices Python's list indexing
    accepts ([ROOMS[room_idx]], [FACILITATORS[facilitator_idx]]): negative
    indices count from the end; the time index is never used as an index. *)
Definition gene_indexable (a : assignment) : Prop :=
  let '(_, r, _, f) := a in
  - num_rooms <= r < num_rooms /\ - num_facilitators <= f < num_facilitators.


(** The per-activity counters of [get_constraint_violations], by group:
    room size, facilitator preference, facilitator time-slot load. *)
Definition room_size_count (v : violations) : Z :=
  v room_too_small + v room_too_large_3x + v room_too_large_1_5x + v room_good_fit.

Definition preference_count (v : violations) : Z :=
  v facilitator_preferred + v facilitator_other + v facilitator_unlisted.

Definition slot_count (v : violations) : Z :=
  v facilitator_single_slot + v facilitator_double_booked.

(** ** [print_fitness_chart] without plotext (the [except ImportError] branch)

    The indices [i] of the history rows the fallback prints, in order:
    [range(min(10, n))], then, if [n > 20],
    [range(max(10, n - 10), n)].  Printing row [i] reads
    [generations[i]], [best_fitness[i]], [avg_fitness[i]] and
    [worst_fitness[i]]. *)
Definition chart_rows (n : nat) : list nat :=
  seq 0 (Nat.min 10 n) ++
  (if 20 <? n then seq (Nat.max 10 (n - 10)) (n - Nat.max 10 (n - 10)) else [])%nat.

(** ** [print_schedule]

    The [SCHEDULE BY TIME SLOT] section, as the sequence of lines it writes:
    a header [TIMES[time_idx]] when the time changes, and one row per
    activity; the file writes around it are left out. *)

(** The sort key [(x[1][2], x[1][1])]: (time, room). *)
Definition ps_key (p : Z * assignment) : Z * Z :=
  let '(_, (_, room_idx, time_idx, _)) := p in (time_idx, room_idx).

(** Tuple comparison [k1 < k2]. *)
Definition key_ltb (k1 k2 : Z * Z) : bool :=
  (fst k1 <? fst k2) || ((fst k1 =? fst k2) && (snd k1 <? snd k2)).

(** [sorted(..., key=ps_key)]: a stable sort, here by insertion. *)
Fixpoint insert_by_key (p : Z * assignment) (l : list (Z * assignment)) : list (Z * assignment) :=
  match l with
  | [] => [p]
  | q :: t => if key_ltb (ps_key q) (ps_key p) then q :: insert_by_key p t else p :: q :: t
  end.

Fixpoint sort_by_key (l : list (Z * assignment)) : list (Z * assignment) :=
  match l with [] => [] | p :: t => insert_by_key p (sort_by_key t) end.

Inductive ps_line := ps_header (time_idx : Z) | ps_row (activity_idx : Z).

(** The loop over [sorted_assignments] from [current_time]; each step
    indexes [TIMES] (for a header), [ACTIVITIES], [ROOMS] and [FACILITATORS]. *)
Fixpoint ps_lines (current_time : Z) (l : list (Z * assignment)) : option (list ps_line) :=
  match l with
  | [] => Some []
  | (activity_idx, (_, room_idx, time_idx, facilitator_idx)) :: t =>
      let? header :=
        if negb (time_idx =? current_time) then
          let? _ := py_index TIMES time_idx in Some [ps_header time_idx]
        else Some [] in
      let current_time := if negb (time_idx =? current_time) then time_idx else current_time in
      let? _ := py_index ACTIVITIES activity_idx in
      let? _ := py_index ROOMS room_idx in
      let? _ := py_index FACILITATORS facilitator_idx in
      let? rest := ps_lines current_time t in
      Some (header ++ ps_row activity_idx :: rest)
  end.

(** [print_schedule(schedule)]: it first evaluates [calculate_fitness] and
    [get_constraint_violations], then writes the schedule from
    [current_time = -1]. *)
Definition print_schedule (schedule : Schedule) : option (list ps_line) :=
  let? _ := calculate_fitness schedule in
  let? _ := get_constraint_violations schedule in
  let sorted_assignments := sort_by_key (enumerate (assignments schedule)) in
  ps_lines (-1) sorted_assignments.

Definition ps_rows (out : list ps_line) : list Z :=
  flat_map (fun ln => match ln with ps_row i => [i] | ps_header _ => [] end) out.

Definition ps_headers (out : list ps_line) : list Z :=
  flat_map (fun ln => match ln with ps_header t => [t] | ps_row _ => [] end) out.

(** The time index of a gene. *)
Definition time_of (a : assignment) : Z := let '(_, _, time_idx, _) := a in time_idx.

(* ================================================================== *)
(** * Proofs *)
(* ================================================================== *)

(** ** Fitness is the weighted violation count *)

Lemma weighted_incr k v : weighted (incr k v) = weighted v + weight_of k.
Proof.
  destruct k; unfold weighted, incr;
    repeat match goal with
           | |- context [vkey_eqb ?a ?b] =>
               let e := eval vm_compute in (vkey_eqb a b) in change (vkey_eqb a b) with e
           end;
    cbv beta iota; cbn [weight_of]; lia.
Qed.

Lemma Some_Z_eq (a b : Z) : a = b -> Some a = Some b.
Proof. intros ->; reflexivity. Qed.

Lemma weighted_violations0 : weighted violations0 = 0.
Proof. reflexivity. Qed.

(** [F] refines [G] up to the weighted sum. *)
Definition fit_corr {A} (F : Z -> A -> option Z) (G : violations -> A -> option violations) :=
  forall f v x, F f x = option_map (fun v' => f + (weighted v' - weighted v)) (G v x).

Lemma fold_opt_corr {A} (F : Z -> A -> option Z) G :
  fit_corr F G ->
  forall l f v,
    fold_opt F l f = option_map (fun v' => f + (weighted v' - weighted v)) (fold_opt G l v).
Proof.
  intros H l; induction l as [|x l IH]; intros f v; cbn [fold_opt option_map].
  - apply Some_Z_eq; lia.
  - rewrite (H f v x). destruct (G v x) as [v1|]; cbn [option_map]; [|reflexivity].
    rewrite (IH _ v1). destruct (fold_opt G l v1); cbn [option_map]; [apply Some_Z_eq; lia | reflexivity].
Qed.

Lemma option_map_shift (o : option violations) (f f' : Z) (v v' : violations) :
  f' - weighted v' = f - weighted v ->
  option_map (fun x => f' + (weighted x - weighted v')) o =
  option_map (fun x => f + (weighted x - weighted v)) o.
Proof. intros H; destruct o; cbn [option_map]; [apply Some_Z_eq; lia | reflexivity]. Qed.

Lemma fold_opt_corr_from {A} (F : Z -> A -> option Z) G :
  fit_corr F G ->
  forall l f v f0 v0, f - weighted v = f0 - weighted v0 ->
    fold_opt F l f = option_map (fun v' => f0 + (weighted v' - weighted v0)) (fold_opt G l v).
Proof.
  intros H l f v f0 v0 E. rewrite (fold_opt_corr F G H l f v).
  apply option_map_shift; lia.
Qed.

Ltac split_ifs :=
  repeat match goal with
         | |- context [if ?c then _ else _] => destruct c
         end.

Ltac close_weighted :=
  cbn [option_map]; repeat rewrite weighted_incr; cbn [weight_of]; apply Some_Z_eq; lia.

Lemma activity_corr lk : fit_corr (fitness_activity lk) (violations_activity lk).
Proof.
  intros f v [ai [[[x r] t] fa]]; unfold fitness_activity, violations_activity.
  destruct (py_index ACTIVITIES ai) as [act|]; [|reflexivity].
  destruct (py_index ROOMS r) as [room|]; [|reflexivity].
  destruct (py_index FACILITATORS fa) as [fac|]; [|reflexivity].
  destruct (dict_get pair_eqb (t, r) _) as [tr|]; [|reflexivity].
  destruct (dict_get pair_eqb (t, fa) _) as [tf|]; [|reflexivity].
  destruct (dict_get Z.eqb fa _) as [load|]; [|reflexivity].
  unfold total_load_rule, total_load_count. split_ifs; close_weighted.
Qed.

Lemma building_corr s : fit_corr (building_pair_fitness s) (building_pair_violations s).
Proof.
  intros f v [i j]; unfold building_pair_fitness, building_pair_violations; cbn [fst snd].
  destruct (act_in_roman_beach s i); [|reflexivity].
  destruct (act_in_roman_beach s j); [|reflexivity].
  split_ifs; close_weighted.
Qed.

Lemma consecutive_corr s fa :
  fit_corr (consecutive_fitness s fa) (consecutive_violations s fa).
Proof.
  intros f v [t1 t2]; unfold consecutive_fitness, consecutive_violations.
  destruct (t2 - t1 =? 1).
  - rewrite (fold_opt_corr _ _ (building_corr s) _ (f + 50) (incr facilitator_consecutive_bonus v)).
    apply option_map_shift. rewrite weighted_incr; cbn [weight_of]; lia.
  - cbn [option_map]; apply Some_Z_eq; lia.
Qed.

Lemma slots_corr s : fit_corr (facilitator_slots_fitness s) (facilitator_slots_violations s).
Proof.
  intros f v [fa ts]; unfold facilitator_slots_fitness, facilitator_slots_violations.
  apply (fold_opt_corr _ _ (consecutive_corr s fa)).
Qed.

Lemma combo_corr : fit_corr sla_combo_fitness sla_combo_violations.
Proof.
  intros f v [[t191 r191] [t101 r101]]; unfold sla_combo_fitness, sla_combo_violations.
  destruct (Z.abs (t191 - t101) =? 1).
  - destruct (py_index ROOMS r191); [|reflexivity].
    destruct (py_index ROOMS r101); [|reflexivity].
    split_ifs; close_weighted.
  - split_ifs; close_weighted.
Qed.

Lemma sla_corr s f v :
  sla_fitness s f = option_map (fun v' => f + (weighted v' - weighted v)) (sla_violations s v).
Proof.
  unfold sla_fitness, sla_violations.
  destruct (sla_sections s) as [[[[a b] c] d]|]; [|reflexivity].
  cbv beta iota zeta. split_ifs;
    (apply (fold_opt_corr_from _ _ combo_corr);
     repeat rewrite weighted_incr; cbn [weight_of]; lia).
Qed.

Lemma calculate_fitness_weighted (s : Schedule) :
  calculate_fitness s = option_map weighted (get_constraint_violations s).
Proof.
  unfold calculate_fitness, get_constraint_violations.
  rewrite (fold_opt_corr _ _ (activity_corr (build_lookups s)) _ 0 violations0).
  destruct (fold_opt (violations_activity _) _ violations0) as [v1|]; cbn [option_map];
    [|reflexivity].
  rewrite (fold_opt_corr _ _ (slots_corr s) _ _ v1).
  destruct (fold_opt (facilitator_slots_violations s) _ v1) as [v2|]; cbn [option_map];
    [|reflexivity].
  rewrite (sla_corr s _ v2).
  destruct (sla_violations s v2); cbn [option_map];
    [apply Some_Z_eq; rewrite weighted_violations0; lia | reflexivity].
Qed.

(** C2: for every schedule, [calculate_fitness] equals the weighted sum of
    the counts of [get_constraint_violations] (-0.5 per room conflict, ...,
    -0.25 per same-time SLA 101/191 pair); both raise on the same schedules. *)
Theorem calculate_fitness_is_weighted_violations (s : Schedule) :
  calculate_fitness s =
  option_map (fun v =>
    - 50 * v room_conflicts - 50 * v room_too_small - 40 * v room_too_large_3x
    - 20 * v room_too_large_1_5x + 30 * v room_good_fit
    + 50 * v facilitator_preferred + 20 * v facilitator_other - 10 * v facilitator_unlisted
    + 20 * v facilitator_single_slot - 20 * v facilitator_double_booked
    - 50 * v facilitator_overload_4plus - 40 * v facilitator_underload_less3
    + 50 * v facilitator_consecutive_bonus - 40 * v facilitator_consecutive_building_penalty
    + 50 * v sla101_sections_far_apart - 50 * v sla101_sections_same_time
    + 50 * v sla191_sections_far_apart - 50 * v sla191_sections_same_time
    + 50 * v sla101_191_consecutive - 40 * v sla101_191_consecutive_building_penalty
    + 25 * v sla101_191_separated_1hr - 25 * v sla101_191_same_time)
    (get_constraint_violations s).
Proof.
  rewrite calculate_fitness_weighted.
  destruct (get_constraint_violations s); [unfold weighted; reflexivity | reflexivity].
Qed.

(** ** Facilitator total load *)

(** C1 (as stated, refuted): Tyler with a total of 2 is penalised -0.4,
    Tyler with a total of 1 is not, and in a schedule where Tyler has two
    activities and everyone else three, two activities are counted as
    underloaded (the claim predicts none). *)
Lemma total_load_tyler_counterexample :
  total_load_rule "Tyler" 2 0 = -40 /\ total_load_rule "Tyler" 1 0 = 0 /\
  option_map (fun v => v facilitator_underload_less3)
             (get_constraint_violations tyler_two_schedule) = Some 2.
Proof. vm_compute. repeat split. Qed.

(** C1 (amended): a total above 4 costs 0.5; a total below 3 costs 0.4
    unless the facilitator is Tyler with a total below 2 (a single
    activity), in which case nothing is charged; totals 3 and 4 cost
    nothing. *)
Theorem total_load_rule_spec (facilitator : string) (total_load fitness : Z) :
  (4 < total_load -> total_load_rule facilitator total_load fitness = fitness - 50) /\
  (total_load < 2 -> facilitator = "Tyler"%string ->
     total_load_rule facilitator total_load fitness = fitness) /\
  (total_load < 3 -> (facilitator <> "Tyler"%string \/ 2 <= total_load) ->
     total_load_rule facilitator total_load fitness = fitness - 40) /\
  (3 <= total_load <= 4 -> total_load_rule facilitator total_load fitness = fitness).
Proof.
  unfold total_load_rule; repeat split; intros.
  - destruct (Z.ltb_spec 4 total_load); [reflexivity | lia].
  - subst facilitator. destruct (Z.ltb_spec 4 total_load); [lia|].
    destruct (Z.ltb_spec total_load 3); [|lia].
    destruct (Z.leb_spec 2 total_load); [lia | reflexivity].
  - destruct (Z.ltb_spec 4 total_load); [lia|].
    destruct (Z.ltb_spec total_load 3); [|lia].
    destruct H0 as [Hne | Hle].
    + apply String.eqb_neq in Hne. rewrite Hne. reflexivity.
    + destruct (Z.leb_spec 2 total_load); [|lia]. rewrite orb_true_r. reflexivity.
  - destruct (Z.ltb_spec 4 total_load); [lia|].
    destruct (Z.ltb_spec total_load 3); [lia | reflexivity].
Qed.

Lemma total_load_rule_spec_witness :
  total_load_rule "Tyler" 1 0 = 0 /\ total_load_rule "Tyler" 2 0 = -40.
Proof.
  split.
  - apply (proj1 (proj2 (total_load_rule_spec "Tyler" 1 0))); [lia | reflexivity].
  - apply (proj1 (proj2 (proj2 (total_load_rule_spec "Tyler" 2 0)))); [lia | right; lia].
Defined.

(** ** The stored activity-index field is never read *)

Lemma enumerate_from_map {A B} (g : A -> B) n (l : list A) :
  enumerate_from n (map g l) = map (fun p => (fst p, g (snd p))) (enumerate_from n l).
Proof. revert n; induction l as [|x l IH]; intros n; cbn; [reflexivity | rewrite IH; reflexivity]. Qed.

Lemma enumerate_clear (l : list assignment) :
  enumerate (map clear_first l) = map (fun p => (fst p, clear_first (snd p))) (enumerate l).
Proof. apply enumerate_from_map. Qed.

Lemma length_map_clear (l : list assignment) : length (map clear_first l) = length l.
Proof. apply length_map. Qed.

Lemma py_index_map {A B} (g : A -> B) (l : list A) i :
  py_index (map g l) i = option_map g (py_index l i).
Proof.
  unfold py_index; rewrite length_map.
  destruct (_ && _); [apply nth_error_map|].
  destruct (_ && _); [apply nth_error_map | reflexivity].
Qed.

Lemma fold_opt_ext {A B} (F G : B -> A -> option B) l acc :
  (forall b x, In x l -> F b x = G b x) -> fold_opt F l acc = fold_opt G l acc.
Proof.
  revert acc; induction l as [|x l IH]; intros acc H; cbn; [reflexivity|].
  rewrite (H acc x (or_introl eq_refl)).
  destruct (G acc x); [apply IH; intros; apply H; right; assumption | reflexivity].
Qed.

Lemma fold_left_clear (f : Lookups -> Z * assignment -> Lookups) l lk :
  (forall lk p, f lk (fst p, clear_first (snd p)) = f lk p) ->
  fold_left f (map (fun p => (fst p, clear_first (snd p))) l) lk = fold_left f l lk.
Proof.
  intros H; revert lk; induction l as [|p l IH]; intros lk; cbn; [reflexivity|].
  rewrite H; apply IH.
Qed.

Lemma fold_opt_clear {B} (F : B -> Z * assignment -> option B) l acc :
  (forall b p, F b (fst p, clear_first (snd p)) = F b p) ->
  fold_opt F (map (fun p => (fst p, clear_first (snd p))) l) acc = fold_opt F l acc.
Proof.
  intros H; revert acc; induction l as [|p l IH]; intros acc; cbn; [reflexivity|].
  rewrite H; destruct (F acc p); [apply IH | reflexivity].
Qed.

Lemma build_lookups_normalize s : build_lookups (normalize s) = build_lookups s.
Proof.
  unfold build_lookups, normalize; cbn [assignments]. rewrite enumerate_clear.
  apply fold_left_clear. intros lk [i [[[x r] t] f]]; reflexivity.
Qed.

Lemma activities_at_normalize s t f : activities_at (normalize s) t f = activities_at s t f.
Proof.
  unfold activities_at, normalize; cbn [assignments]. rewrite enumerate_clear.
  generalize (enumerate (assignments s)) as l; induction l as [|[i [[[x r] t'] f']] l IH];
    cbn; [reflexivity|].
  destruct (_ && _); cbn; rewrite IH; reflexivity.
Qed.

Lemma act_in_roman_beach_normalize s i :
  act_in_roman_beach (normalize s) i = act_in_roman_beach s i.
Proof.
  unfold act_in_roman_beach, normalize; cbn [assignments]. rewrite py_index_map.
  destruct (py_index (assignments s) i) as [[[[x r] t] f]|]; reflexivity.
Qed.

Lemma room_time_of_normalize s i : room_time_of (normalize s) i = room_time_of s i.
Proof.
  unfold room_time_of, normalize; cbn [assignments]. rewrite py_index_map.
  destruct (py_index (assignments s) i) as [[[[x r] t] f]|]; reflexivity.
Qed.

Lemma sla_sections_normalize s : sla_sections (normalize s) = sla_sections s.
Proof.
  unfold sla_sections.
  destruct (activity_index "SLA101A"); [|reflexivity].
  destruct (activity_index "SLA101B"); [|reflexivity].
  destruct (activity_index "SLA191A"); [|reflexivity].
  destruct (activity_index "SLA191B"); [|reflexivity].
  rewrite !room_time_of_normalize; reflexivity.
Qed.

Lemma calculate_fitness_normalize s : calculate_fitness (normalize s) = calculate_fitness s.
Proof.
  unfold calculate_fitness. rewrite build_lookups_normalize.
  change (assignments (normalize s)) with (map clear_first (assignments s)).
  rewrite enumerate_clear.
  rewrite fold_opt_clear by (intros b [i [[[x r] t] f]]; reflexivity).
  destruct (fold_opt _ _ 0) as [f1|]; [|reflexivity].
  rewrite (fold_opt_ext (facilitator_slots_fitness (normalize s)) (facilitator_slots_fitness s)).
  2:{ intros b [fa ts] _. unfold facilitator_slots_fitness.
      apply fold_opt_ext; intros b' [t1 t2] _. unfold consecutive_fitness.
      rewrite !activities_at_normalize.
      destruct (t2 - t1 =? 1); [|reflexivity].
      apply fold_opt_ext; intros b'' [i j] _. unfold building_pair_fitness; cbn [fst snd].
      rewrite !act_in_roman_beach_normalize; reflexivity. }
  destruct (fold_opt _ _ f1) as [f2|]; [|reflexivity].
  unfold sla_fitness. rewrite sla_sections_normalize. reflexivity.
Qed.

Lemma normalize_of_rtf s1 s2 :
  map rtf (assignments s1) = map rtf (assignments s2) -> normalize s1 = normalize s2.
Proof.
  unfold normalize; intros H; f_equal.
  revert H; generalize (assignments s2) as l2; induction (assignments s1) as [|a l1 IH];
    intros [|b l2] H; cbn in *; try discriminate; [reflexivity|].
  destruct a as [[[x r] t] f], b as [[[x' r'] t'] f']; cbn in H.
  injection H as E1 E2 E3 E4. subst. rewrite (IH l2 E4). reflexivity.
Qed.

(** C10: [calculate_fitness] does not read the first component of any
    assignment tuple: schedules that agree on every (room, time,
    facilitator) triple get the same result. *)
Theorem calculate_fitness_ignores_activity_field (s1 s2 : Schedule) :
  map rtf (assignments s1) = map rtf (assignments s2) ->
  calculate_fitness s1 = calculate_fitness s2.
Proof.
  intros H. rewrite <- (calculate_fitness_normalize s1), <- (calculate_fitness_normalize s2).
  rewrite (normalize_of_rtf s1 s2 H). reflexivity.
Qed.

Lemma calculate_fitness_ignores_activity_field_witness :
  calculate_fitness tyler_two_schedule =
  calculate_fitness {| assignments := map (fun a => let '(_, r, t, f) := a in (42, r, t, f))
                                          (assignments tyler_two_schedule) |}.
Proof. apply calculate_fitness_ignores_activity_field. vm_compute. reflexivity. Defined.

(** ** Population operators *)

Lemma rng_integers_range lo hi g : lo < hi -> lo <= fst (rng_integers lo hi g) < hi.
Proof.
  intros H; unfold rng_integers, rng_next; cbn [fst].
  pose proof (Z.mod_pos_bound (g O) (hi - lo)); lia.
Qed.

Lemma random_gene_ok i g : gene_ok (fst (random_gene i g)).
Proof.
  unfold random_gene.
  pose proof (rng_integers_range 0 num_rooms g) as Hr.
  destruct (rng_integers 0 num_rooms g) as [r g1] eqn:E1.
  pose proof (rng_integers_range 0 num_times g1) as Ht.
  destruct (rng_integers 0 num_times g1) as [t g2] eqn:E2.
  pose proof (rng_integers_range 0 num_facilitators g2) as Hf.
  destruct (rng_integers 0 num_facilitators g2) as [f g3] eqn:E3.
  cbn in Hr, Ht, Hf |- *. unfold num_rooms, num_times, num_facilitators in *; cbn in *; lia.
Qed.

Lemma random_genes_ok idxs g :
  length (fst (random_genes idxs g)) = length idxs /\ Forall gene_ok (fst (random_genes idxs g)).
Proof.
  revert g; induction idxs as [|i t IH]; intros g; cbn [random_genes];
    [split; [reflexivity | constructor]|].
  pose proof (random_gene_ok i g) as Hg.
  destruct (random_gene i g) as [a g1]. specialize (IH g1).
  destruct (random_genes t g1) as [rest g2]; cbn [fst length] in *.
  destruct IH as [IHl IHf]; split; [lia | constructor; assumption].
Qed.

Lemma create_random_schedule_ok g : schedule_ok (fst (create_random_schedule g)).
Proof.
  unfold create_random_schedule.
  pose proof (random_genes_ok (map Z.of_nat (seq 0 (length ACTIVITIES))) g) as [Hl Hf].
  destruct (random_genes _ g) as [genes g']; cbn [fst] in Hl, Hf |- *.
  split; [cbn [assignments]; rewrite Hl, length_map, length_seq; reflexivity | exact Hf].
Qed.

Lemma mutate_gene_ok rate a g : gene_ok a -> gene_ok (fst (mutate_gene rate a g)).
Proof.
  intros Ha; unfold mutate_gene.
  destruct (rng_random g) as [x g1].
  destruct (Qltb x rate); [|exact Ha].
  destruct (rng_integers 0 3 g1) as [mt g2].
  destruct a as [[[ai r] t] f]; cbn in Ha.
  pose proof (rng_integers_range 0 num_rooms g2) as Hr.
  pose proof (rng_integers_range 0 num_times g2) as Ht.
  pose proof (rng_integers_range 0 num_facilitators g2) as Hf.
  destruct (mt =? 0); [|destruct (mt =? 1)].
  - destruct (rng_integers 0 num_rooms g2) as [r' g3]; cbn in *.
    unfold num_rooms in *; cbn in *; lia.
  - destruct (rng_integers 0 num_times g2) as [t' g3]; cbn in *.
    unfold num_times in *; cbn in *; lia.
  - destruct (rng_integers 0 num_facilitators g2) as [f' g3]; cbn in *.
    unfold num_facilitators in *; cbn in *; lia.
Qed.

Lemma mutate_genes_ok rate genes g :
  Forall gene_ok genes ->
  length (fst (mutate_genes rate genes g)) = length genes /\
  Forall gene_ok (fst (mutate_genes rate genes g)).
Proof.
  revert g; induction genes as [|a t IH]; intros g H; cbn [mutate_genes];
    [split; [reflexivity | constructor]|].
  inversion H as [|? ? Ha Ht]; subst.
  pose proof (mutate_gene_ok rate a g Ha) as Ha'.
  destruct (mutate_gene rate a g) as [a' g1]. specialize (IH g1 Ht).
  destruct (mutate_genes rate t g1) as [rest g2]; cbn [fst length] in *.
  destruct IH as [IHl IHf]; split; [lia | constructor; assumption].
Qed.

Lemma mutate_ok s rate g : schedule_ok s -> schedule_ok (fst (mutate s rate g)).
Proof.
  intros [Hl Hf]; unfold mutate.
  pose proof (mutate_genes_ok rate (assignments s) g Hf) as [Hl' Hf'].
  destruct (mutate_genes rate (assignments s) g) as [genes g']; cbn [fst assignments] in *.
  split; cbn [assignments]; [rewrite Hl'; exact Hl | assumption].
Qed.

Lemma Forall_firstn_skipn {A} (P : A -> Prop) n (l1 l2 : list A) :
  Forall P l1 -> Forall P l2 -> Forall P (firstn n l1 ++ skipn n l2).
Proof.
  intros H1 H2; apply Forall_app; split.
  - rewrite <- (firstn_skipn n l1) in H1. apply Forall_app in H1; tauto.
  - rewrite <- (firstn_skipn n l2) in H2. apply Forall_app in H2; tauto.
Qed.

Lemma crossover_point_range g :
  1 <= fst (rng_integers 1 num_activities g) < num_activities.
Proof. apply rng_integers_range. reflexivity. Qed.

Lemma crossover_ok p1 p2 g :
  schedule_ok p1 -> schedule_ok p2 ->
  schedule_ok (fst (fst (crossover p1 p2 g))) /\ schedule_ok (snd (fst (crossover p1 p2 g))).
Proof.
  intros [Hl1 Hf1] [Hl2 Hf2]; unfold crossover.
  pose proof (crossover_point_range g) as Hk.
  destruct (rng_integers 1 num_activities g) as [k g']; cbn in *.
  unfold num_activities in Hk.
  split; split; cbn [assignments];
    first [ apply Forall_firstn_skipn; assumption
          | change (length ACTIVITIES) with 11%nat;
            rewrite length_app, length_firstn, length_skipn; lia ].
Qed.

(** C4: random initialization yields a well-formed chromosome (one gene per
    activity, every index within its catalog), and crossover and mutation
    yield well-formed chromosomes from well-formed inputs. *)
Theorem operators_preserve_schedule_ok :
  (forall g, schedule_ok (fst (create_random_schedule g))) /\
  (forall p1 p2 g, schedule_ok p1 -> schedule_ok p2 ->
     schedule_ok (fst (fst (crossover p1 p2 g))) /\
     schedule_ok (snd (fst (crossover p1 p2 g)))) /\
  (forall s rate g, schedule_ok s -> schedule_ok (fst (mutate s rate g))).
Proof.
  split; [exact create_random_schedule_ok|].
  split; [exact crossover_ok | exact mutate_ok].
Qed.

Lemma operators_preserve_schedule_ok_witness :
  schedule_ok (fst (mutate (fst (fst (crossover (fst (create_random_schedule sample_rng))
     (fst (create_random_schedule (fun n => sample_rng (n + 33)%nat))) sample_rng)))
     (1 # 2) sample_rng)).
Proof.
  destruct operators_preserve_schedule_ok as [Hc [Hx Hm]].
  apply Hm. apply (Hx _ _ sample_rng); apply Hc.
Defined.

Lemma firstn_skipn_app_length {A} (l r : list A) :
  firstn (length l) (l ++ r) = l /\ skipn (length l) (l ++ r) = r.
Proof.
  induction l as [|x l [IH1 IH2]]; cbn; [split; reflexivity|].
  rewrite IH1, IH2; split; reflexivity.
Qed.

Lemma crossover_at_split k (p1 p2 : Schedule) :
  (k <= length (assignments p1))%nat -> (k <= length (assignments p2))%nat ->
  let '(child1, child2) := crossover_at k p1 p2 in
  firstn k (assignments child1) = firstn k (assignments p1) /\
  skipn k (assignments child1) = skipn k (assignments p2) /\
  firstn k (assignments child2) = firstn k (assignments p2) /\
  skipn k (assignments child2) = skipn k (assignments p1).
Proof.
  intros H1 H2; unfold crossover_at; cbn [assignments].
  assert (E1 : length (firstn k (assignments p1)) = k) by (rewrite length_firstn; lia).
  assert (E2 : length (firstn k (assignments p2)) = k) by (rewrite length_firstn; lia).
  destruct (firstn_skipn_app_length (firstn k (assignments p1)) (skipn k (assignments p2)))
    as [A1 B1].
  destruct (firstn_skipn_app_length (firstn k (assignments p2)) (skipn k (assignments p1)))
    as [A2 B2].
  rewrite E1 in A1, B1; rewrite E2 in A2, B2. tauto.
Qed.

(** C5: crossover draws a split point [k] in [{1, ..., N-1}] and, for
    parents of [N] genes, child1 is [parent1[0:k] ++ parent2[k:]] and child2
    [parent2[0:k] ++ parent1[k:]]; the parents are values and are returned
    untouched. *)
Theorem crossover_split (p1 p2 : Schedule) (g : Rng) :
  length (assignments p1) = length ACTIVITIES ->
  length (assignments p2) = length ACTIVITIES ->
  let k := Z.to_nat (fst (rng_integers 1 num_activities g)) in
  (1 <= k < length ACTIVITIES)%nat /\
  fst (crossover p1 p2 g) = crossover_at k p1 p2 /\
  let '(child1, child2) := fst (crossover p1 p2 g) in
  firstn k (assignments child1) = firstn k (assignments p1) /\
  skipn k (assignments child1) = skipn k (assignments p2) /\
  firstn k (assignments child2) = firstn k (assignments p2) /\
  skipn k (assignments child2) = skipn k (assignments p1).
Proof.
  intros H1 H2 k.
  pose proof (crossover_point_range g) as Hk.
  assert (Hk' : (1 <= k < length ACTIVITIES)%nat).
  { unfold k. set (r := fst (rng_integers 1 num_activities g)) in *.
    unfold num_activities in Hk. lia. }
  assert (Ec : fst (crossover p1 p2 g) = crossover_at k p1 p2).
  { unfold crossover, k. destruct (rng_integers 1 num_activities g); reflexivity. }
  split; [exact Hk'|]. split; [exact Ec|]. rewrite Ec.
  apply crossover_at_split; lia.
Qed.

Lemma crossover_split_witness :
  let p1 := fst (create_random_schedule (fun n => Z.of_nat n)) in
  let p2 := fst (create_random_schedule (fun n => 3 * Z.of_nat n + 1)) in
  let k := Z.to_nat (fst (rng_integers 1 num_activities (fun n => 7))) in
  (1 <= k < length ACTIVITIES)%nat.
Proof.
  intros p1 p2 k.
  exact (proj1 (crossover_split p1 p2 (fun n => 7) eq_refl eq_refl)).
Defined.

Lemma rng_random_not_below_zero g : Qltb (fst (rng_random g)) 0 = false.
Proof.
  unfold Qltb, rng_random, rng_next; cbn [fst].
  unfold Qle_bool; cbn [Qnum Qden].
  pose proof (Z.mod_pos_bound (g O) (2 ^ 53)) as H.
  replace (0 * Z.pos (2 ^ 53)) with 0 by reflexivity.
  destruct (Z.leb_spec 0 (g O mod 2 ^ 53 * 1)); [reflexivity | lia].
Qed.

Lemma mutate_genes_rate_zero genes g : fst (mutate_genes 0 genes g) = genes.
Proof.
  revert g; induction genes as [|a t IH]; intros g; cbn [mutate_genes]; [reflexivity|].
  assert (E : fst (mutate_gene 0 a g) = a).
  { unfold mutate_gene. pose proof (rng_random_not_below_zero g) as H.
    destruct (rng_random g) as [x g1]; cbn [fst] in H. rewrite H. reflexivity. }
  destruct (mutate_gene 0 a g) as [a' g1]; cbn [fst] in E; subst a'.
  specialize (IH g1). destruct (mutate_genes 0 t g1) as [rest g2]; cbn [fst] in *.
  rewrite IH; reflexivity.
Qed.

(** C9: with mutation rate 0.0 every gene of the result equals the input's;
    the input is a value and is not modified. *)
Theorem mutate_rate_zero_identity (s : Schedule) (g : Rng) :
  assignments (fst (mutate s 0 g)) = assignments s.
Proof.
  unfold mutate. pose proof (mutate_genes_rate_zero (assignments s) g) as H.
  destruct (mutate_genes 0 (assignments s) g); cbn [fst] in *; exact H.
Qed.

(** ** Tournament selection *)

Lemma list_pop_perm {A} i (l : list A) x rest :
  list_pop i l = Some (x, rest) -> Permutation l (x :: rest).
Proof.
  revert i x rest; induction l as [|y l IH]; intros i x rest H; [destruct i; discriminate|].
  destruct i as [|i]; cbn in H.
  - injection H as -> ->; reflexivity.
  - destruct (list_pop i l) as [[z t]|] eqn:E; [|discriminate].
    injection H as Hx Hr. subst x rest. specialize (IH i z t E).
    rewrite IH. apply perm_swap.
Qed.

Lemma list_pop_some {A} i (l : list A) : (i < length l)%nat -> exists x rest, list_pop i l = Some (x, rest).
Proof.
  revert i; induction l as [|y l IH]; intros i H; cbn in H; [lia|].
  destruct i as [|i]; cbn; [eauto|].
  destruct (IH i ltac:(lia)) as [x [rest E]]; rewrite E; eauto.
Qed.

Lemma choice_loop_perm k rem g xs g' :
  choice_loop k rem g = Some (xs, g') ->
  length xs = k /\ exists rest, Permutation rem (xs ++ rest).
Proof.
  revert rem g xs g'; induction k as [|k IH]; intros rem g xs g' H; cbn in H.
  - injection H as <- _; split; [reflexivity | exists rem; reflexivity].
  - destruct (list_pop _ rem) as [[x rest]|] eqn:Ep; [|discriminate].
    destruct (choice_loop k rest _) as [[ys g2]|] eqn:Ec; [|discriminate].
    injection H as <- _.
    destruct (IH _ _ _ _ Ec) as [Hl [rest' Hp]].
    split; [cbn; lia|]. exists rest'.
    rewrite (list_pop_perm _ _ _ _ Ep). cbn. apply perm_skip. exact Hp.
Qed.

Lemma rng_choice_spec n k g xs g' :
  rng_choice n k g = Some (xs, g') ->
  length xs = k /\ NoDup xs /\ (forall i, In i xs -> 0 <= i < Z.of_nat n).
Proof.
  unfold rng_choice. destruct (Nat.ltb n k); [discriminate|]. intros H.
  destruct (choice_loop_perm _ _ _ _ _ H) as [Hl [rest Hp]].
  assert (Hnd : NoDup (map Z.of_nat (seq 0 n))).
  { apply Finite.Injective_map_NoDup; [intros a b Hab; lia | apply seq_NoDup]. }
  split; [exact Hl|]. split.
  - apply Permutation_NoDup in Hp; [|exact Hnd]. apply NoDup_app_remove_r in Hp; exact Hp.
  - intros i Hi. assert (Hin : In i (map Z.of_nat (seq 0 n))).
    { apply (Permutation_in _ (Permutation_sym Hp)). apply in_or_app; left; exact Hi. }
    apply in_map_iff in Hin as [m [<- Hm]]. apply in_seq in Hm. lia.
Qed.

Lemma py_max_key_from_spec key best bk l r :
  key best = Some bk -> py_max_key_from key best bk l = Some r ->
  In r (best :: l) /\ exists kr, key r = Some kr /\ bk <= kr /\
    forall x, In x l -> exists kx, key x = Some kx /\ kx <= kr.
Proof.
  revert best bk; induction l as [|x l IH]; intros best bk Hb H; cbn in H.
  - injection H as <-. split; [left; reflexivity|]. exists bk; split; [exact Hb|].
    split; [lia | intros x []].
  - destruct (key x) as [kx|] eqn:Ex; [|discriminate].
    destruct (Z.ltb_spec bk kx).
    + destruct (IH x kx Ex H) as [Hin [kr [Hr [Hle Hall]]]].
      split; [right; exact Hin|]. exists kr; split; [exact Hr|]. split; [lia|].
      intros y [<-|Hy]; [exists kx; split; [exact Ex | lia] | apply Hall; exact Hy].
    + destruct (IH best bk Hb H) as [Hin [kr [Hr [Hle Hall]]]].
      split; [destruct Hin as [<-|Hin]; [left; reflexivity | right; right; exact Hin]|].
      exists kr; split; [exact Hr|]. split; [lia|].
      intros y [<-|Hy]; [exists kx; split; [exact Ex | lia] | apply Hall; exact Hy].
Qed.

Lemma py_max_key_spec key l r :
  py_max_key key l = Some r ->
  In r l /\ exists kr, key r = Some kr /\ forall x, In x l -> exists kx, key x = Some kx /\ kx <= kr.
Proof.
  destruct l as [|b l]; cbn; [discriminate|].
  destruct (key b) as [kb|] eqn:Eb; [|discriminate]. intros H.
  destruct (py_max_key_from_spec key b kb l r Eb H) as [Hin [kr [Hr [Hle Hall]]]].
  split; [exact Hin|]. exists kr; split; [exact Hr|].
  intros x [<-|Hx]; [exists kb; split; [exact Eb | lia] | apply Hall; exact Hx].
Qed.

(** C8: tournament selection samples [TOURNAMENT_SIZE] distinct indices of
    the population and returns the chromosome at a sampled index whose
    fitness is the largest among the sampled ones. *)
Theorem tournament_selection_best cfg (pop : list Schedule) (scores : list Z) g s g' :
  tournament_selection cfg pop scores g = Some (s, g') ->
  exists idxs best,
    rng_choice (length pop) (TOURNAMENT_SIZE cfg) g = Some (idxs, g') /\
    length idxs = TOURNAMENT_SIZE cfg /\ NoDup idxs /\
    (forall i, In i idxs -> 0 <= i < Z.of_nat (length pop)) /\
    In best idxs /\ py_index pop best = Some s /\
    exists fb, py_index scores best = Some fb /\
      forall i, In i idxs -> exists fi, py_index scores i = Some fi /\ fi <= fb.
Proof.
  unfold tournament_selection.
  destruct (rng_choice (length pop) (TOURNAMENT_SIZE cfg) g) as [[idxs g1]|] eqn:Ec;
    [|discriminate].
  destruct (py_max_key _ idxs) as [b|] eqn:Em; [|discriminate].
  destruct (py_index pop b) as [sb|] eqn:Ep; [|discriminate].
  intros H; injection H as <- <-.
  destruct (rng_choice_spec _ _ _ _ _ Ec) as [Hl [Hnd Hr]].
  destruct (py_max_key_spec _ _ _ Em) as [Hin [kb [Hkb Hall]]].
  exists idxs, b.
  exact (conj eq_refl (conj Hl (conj Hnd (conj Hr (conj Hin (conj Ep
           (ex_intro _ kb (conj Hkb Hall)))))))).
Qed.

Lemma tournament_selection_best_witness :
  exists s g' idxs best,
    tournament_selection small_config sample_population [-300; -120; 45; -80; 10; -5] sample_rng
      = Some (s, g') /\ In best idxs /\ py_index sample_population best = Some s.
Proof.
  destruct (tournament_selection small_config sample_population [-300; -120; 45; -80; 10; -5]
              sample_rng) as [[s g']|] eqn:E; [|vm_compute in E; discriminate].
  destruct (tournament_selection_best _ _ _ _ _ _ E)
    as [idxs [best [_ [_ [_ [_ [Hin [Hs _]]]]]]]].
  exists s, g', idxs, best. split; [reflexivity | split; assumption].
Defined.

(** ** Elitism keeps the best chromosome *)

Lemma map_opt_nth {A B} (f : A -> option B) l l' :
  map_opt f l = Some l' ->
  length l' = length l /\
  forall n x, nth_error l n = Some x -> exists y, f x = Some y /\ nth_error l' n = Some y.
Proof.
  revert l'; induction l as [|x l IH]; intros l' H; cbn in H.
  - injection H as <-; split; [reflexivity | intros [|n] x' E; discriminate].
  - destruct (f x) as [y|] eqn:Ey; [|discriminate].
    destruct (map_opt f l) as [ys|] eqn:Eys; [|discriminate].
    injection H as <-. destruct (IH ys eq_refl) as [Hl Hn].
    split; [cbn; lia|]. intros [|n] x' E; cbn in E |- *.
    + injection E as <-; exists y; split; [exact Ey | reflexivity].
    + apply Hn; exact E.
Qed.

Lemma map_opt_in {A B} (f : A -> option B) l l' x :
  map_opt f l = Some l' -> In x l -> exists y, f x = Some y /\ In y l'.
Proof.
  intros H Hx. apply In_nth_error in Hx as [n Hn].
  destruct (proj2 (map_opt_nth f l l' H) n x Hn) as [y [Hy Hy']].
  exists y; split; [exact Hy | eapply nth_error_In; exact Hy'].
Qed.

Lemma fold_left_max_spec (l : list Z) x :
  (In (fold_left Z.max l x) (x :: l)) /\ x <= fold_left Z.max l x /\
  forall z, In z l -> z <= fold_left Z.max l x.
Proof.
  revert x; induction l as [|y l IH]; intros x; cbn.
  - split; [left; reflexivity | split; [lia | intros z []]].
  - destruct (IH (Z.max x y)) as [Hin [Hle Hall]].
    split; [|split; [lia|]].
    + destruct Hin as [E|Hin]; [|right; right; exact Hin].
      destruct (Z.max_spec x y) as [[_ M]|[_ M]]; rewrite M in E |- *;
        [right; left; exact E | left; exact E].
    + intros z [<-|Hz]; [lia | apply Hall; exact Hz].
Qed.

Lemma py_max_spec l b : py_max l = Some b -> In b l /\ forall z, In z l -> z <= b.
Proof.
  destruct l as [|x l]; cbn; [discriminate|]. intros H; injection H as <-.
  destruct (fold_left_max_spec l x) as [Hin [Hle Hall]].
  split; [exact Hin | intros z [<-|Hz]; [exact Hle | apply Hall; exact Hz]].
Qed.

Lemma insert_by_score_perm p l : Permutation (insert_by_score p l) (p :: l).
Proof.
  induction l as [|q l IH]; cbn; [reflexivity|].
  destruct (snd p <=? snd q); [reflexivity|].
  rewrite IH. apply perm_swap.
Qed.

Lemma sort_by_score_perm l : Permutation (sort_by_score l) l.
Proof.
  induction l as [|p l IH]; cbn; [reflexivity|].
  rewrite insert_by_score_perm. apply perm_skip; exact IH.
Qed.

Lemma insert_by_score_sorted p l :
  StronglySorted score_le l -> StronglySorted score_le (insert_by_score p l).
Proof.
  induction l as [|q l IH]; intros H; cbn.
  - repeat constructor.
  - inversion H as [|? ? Hs Hf]; subst.
    destruct (Z.leb_spec (snd p) (snd q)).
    + constructor; [exact H|]. constructor; [exact H0|].
      eapply Forall_impl; [|exact Hf]. unfold score_le; intros a Ha; lia.
    + constructor; [apply IH; exact Hs|].
      eapply Permutation_Forall; [symmetry; apply insert_by_score_perm|].
      constructor; [unfold score_le; lia | exact Hf].
Qed.

Lemma sort_by_score_sorted l : StronglySorted score_le (sort_by_score l).
Proof.
  induction l as [|p l IH]; cbn; [constructor | apply insert_by_score_sorted; exact IH].
Qed.

Lemma sorted_last_max (pre : list (Z * Z)) m :
  StronglySorted score_le (pre ++ [m]) -> forall q, In q (pre ++ [m]) -> snd q <= snd m.
Proof.
  induction pre as [|p pre IH]; intros H q Hq; cbn in *.
  - destruct Hq as [<-|[]]; lia.
  - inversion H as [|? ? Hs Hf]; subst.
    destruct Hq as [<-|Hq]; [|apply IH; assumption].
    rewrite Forall_forall in Hf. apply Hf, in_or_app; right; left; reflexivity.
Qed.

Lemma enumerate_from_in {A} n (l : list A) i x :
  In (i, x) (enumerate_from n l) -> n <= i /\ nth_error l (Z.to_nat (i - n)) = Some x.
Proof.
  revert n; induction l as [|y l IH]; intros n H; cbn in H; [contradiction|].
  destruct H as [E|H].
  - injection E as <- <-. rewrite Z.sub_diag; split; [lia | reflexivity].
  - destruct (IH (n + 1) H) as [Hle Hn]. split; [lia|].
    replace (Z.to_nat (i - n)) with (S (Z.to_nat (i - (n + 1)))) by lia. exact Hn.
Qed.

Lemma enumerate_from_fst {A} n (l : list A) : map fst (enumerate_from n l) = map (fun k => n + Z.of_nat k) (seq 0 (length l)).
Proof.
  revert n; induction l as [|y l IH]; intros n; cbn; [reflexivity|].
  rewrite IH, <- seq_shift, map_map. f_equal; [lia|]. apply map_ext; intros; lia.
Qed.

Lemma skipn_keeps_last {A} k (pre : list A) x :
  (k <= length pre)%nat -> In x (skipn k (pre ++ [x])).
Proof.
  intros H. rewrite skipn_app. replace (k - length pre)%nat with O by lia.
  apply in_or_app; right; left; reflexivity.
Qed.

Lemma py_slice_from_keeps_last {A} (c : Z) (pre : list A) x :
  0 <= c -> In x (py_slice_from (- c) (pre ++ [x])).
Proof.
  intros Hc; unfold py_slice_from. rewrite length_app; cbn [length].
  apply skipn_keeps_last.
  destruct (Z.ltb_spec (- c) 0); lia.
Qed.

Lemma enumerate_from_nth {A} m (l : list A) n x :
  nth_error l n = Some x -> In (m + Z.of_nat n, x) (enumerate_from m l).
Proof.
  revert m n; induction l as [|y l IH]; intros m [|n] H; cbn [nth_error] in H;
    cbn [enumerate_from]; try discriminate.
  - injection H as <-; left; f_equal; lia.
  - right. replace (m + Z.of_nat (S n)) with ((m + 1) + Z.of_nat n) by lia. apply IH, H.
Qed.

Lemma length_enumerate_from {A} m (l : list A) : length (enumerate_from m l) = length l.
Proof. revert m; induction l; intros m; cbn; [reflexivity | rewrite IHl; reflexivity]. Qed.

Lemma py_index_nonneg {A} (l : list A) i :
  0 <= i -> py_index l i = if i <? Z.of_nat (length l) then nth_error l (Z.to_nat i) else None.
Proof.
  intros Hi; unfold py_index.
  destruct (Z.leb_spec 0 i); [|lia]. destruct (Z.ltb_spec i (Z.of_nat (length l))); cbn; [reflexivity|].
  destruct (Z.ltb_spec i 0); [lia|]. rewrite andb_false_r; reflexivity.
Qed.

(** The last index of [argsort] holds a maximal score. *)
Lemma argsort_last_max (scores : list Z) :
  scores <> [] ->
  exists pre i k, argsort scores = pre ++ [i] /\ 0 <= i /\
    nth_error scores (Z.to_nat i) = Some k /\ forall z, In z scores -> z <= k.
Proof.
  intros Hne. unfold argsort.
  set (L := sort_by_score (enumerate scores)).
  assert (Hp : Permutation L (enumerate scores)) by apply sort_by_score_perm.
  assert (Hs : StronglySorted score_le L) by apply sort_by_score_sorted.
  destruct L as [|p0 L0] eqn:EL.
  - apply Permutation_length in Hp. unfold enumerate in Hp.
    rewrite length_enumerate_from in Hp. destruct scores; [contradiction | discriminate].
  - rewrite <- EL in *. destruct (exists_last (l := L) ltac:(rewrite EL; discriminate))
      as [pre [[i k] Epre]].
    rewrite Epre in Hp, Hs |- *.
    assert (Hm : In (i, k) (enumerate scores)).
    { eapply Permutation_in; [exact Hp | apply in_or_app; right; left; reflexivity]. }
    destruct (enumerate_from_in 0 scores i k Hm) as [Hi Hn]. rewrite Z.sub_0_r in Hn.
    exists (map fst pre), i, k. rewrite map_app. split; [reflexivity|]. split; [exact Hi|].
    split; [exact Hn|]. intros z Hz. apply In_nth_error in Hz as [n Hzn].
    pose proof (enumerate_from_nth 0 scores n z Hzn) as Hz.
    eapply Permutation_in in Hz; [|symmetry; exact Hp].
    exact (sorted_last_max pre (i, k) Hs _ Hz).
Qed.

Lemma breed_prefix cfg r pop scores rate acc g res g' :
  breed cfg r pop scores rate acc g = Some (res, g') -> exists rest, res = acc ++ rest.
Proof.
  revert acc g; induction r as [r IH] using lt_wf_ind; intros acc g H.
  destruct r as [|r']; cbn [breed] in H.
  - injection H as <- _. exists []; rewrite app_nil_r; reflexivity.
  - destruct (tournament_selection cfg pop scores g) as [[p1 g1]|]; [|discriminate].
    destruct (tournament_selection cfg pop scores g1) as [[p2 g2]|]; [|discriminate].
    destruct (crossover p1 p2 g2) as [[c1 c2] g3].
    destruct (mutate c1 rate g3) as [c1' g4]. destruct (mutate c2 rate g4) as [c2' g5].
    destruct r' as [|r''].
    + cbn iota in H; injection H as <- _. eexists; reflexivity.
    + apply IH in H as [rest Hr]; [|lia]. exists ([c1'] ++ [c2'] ++ rest).
      rewrite Hr, <- !app_assoc; reflexivity.
Qed.

(** What a pass of the loop that does not stop at the convergence check
    does: it scores the population, keeps the elites and breeds the rest. *)
Lemma ga_iter_inv cfg st st' :
  ga_iter cfg st = Some (OContinue st') \/ ga_iter cfg st = Some (OLimit st') ->
  exists sc b w elites g,
    map_opt calculate_fitness (population st) = Some sc /\
    py_max sc = Some b /\ py_min sc = Some w /\
    converged cfg (generation st)
      (improvement_of (generation st) (previous_avg_fitness st) (mean_points sc)) = false /\
    map_opt (py_index (population st)) (elite_indices cfg sc) = Some elites /\
    breed cfg (POPULATION_SIZE cfg - length elites) (population st) sc
      (adapt_rate (generation st)
         (improvement_of (generation st) (previous_avg_fitness st) (mean_points sc))
         (mutation_rate st)) elites (rng st) = Some (population st', g) /\
    generation st' = generation st + 1 /\
    (ga_iter cfg st = Some (OLimit st') <-> 1000 <= generation st + 1).
Proof.
  intros H. unfold ga_iter in *.
  destruct (map_opt calculate_fitness (population st)) as [sc|] eqn:Esc;
    [|destruct H as [H|H]; discriminate].
  destruct (py_max sc) as [b|] eqn:Eb; [|destruct H as [H|H]; discriminate].
  destruct (py_min sc) as [w|] eqn:Ew; [|destruct H as [H|H]; discriminate].
  cbn [generation previous_avg_fitness population mutation_rate rng] in *.
  destruct (converged cfg _ _) eqn:Ec; [destruct H as [H|H]; discriminate|].
  destruct (map_opt (py_index (population st)) _) as [elites|] eqn:Ee;
    [|destruct H as [H|H]; discriminate].
  destruct (breed _ _ _ _ _ _ _) as [[next g]|] eqn:Ebr; [|destruct H as [H|H]; discriminate].
  exists sc, b, w, elites, g.
  destruct (1000 <=? generation st + 1) eqn:Hl; destruct H as [H|H]; try discriminate H;
    injection H as <-; cbn [population generation];
    repeat (split; [first [reflexivity | assumption]|]); split; intros Hx; try reflexivity; try discriminate Hx;
    [apply Z.leb_le; exact Hl | apply Z.leb_le in Hx; congruence].
Qed.

(** C3: across one pass of the generational loop that does not stop at the
    convergence check, the best fitness of the population (the maximum of
    [calculate_fitness] over it) does not decrease: the chromosome at the
    last index of [argsort] is among the elites, and the next population
    starts with the elites. *)
Theorem best_fitness_non_decreasing cfg st st' sc sc' b b' :
  ga_iter cfg st = Some (OContinue st') \/ ga_iter cfg st = Some (OLimit st') ->
  map_opt calculate_fitness (population st) = Some sc ->
  map_opt calculate_fitness (population st') = Some sc' ->
  py_max sc = Some b -> py_max sc' = Some b' ->
  b <= b'.
Proof.
  intros Hit Hsc Hsc' Hb Hb'.
  destruct (ga_iter_inv cfg st st' Hit)
    as [sc0 [b0 [w0 [elites [g [Hsc0 [_ [_ [_ [Hel [Hbr _]]]]]]]]]]].
  rewrite Hsc in Hsc0; injection Hsc0 as <-.
  destruct (py_max_spec sc b Hb) as [Hbin _].
  destruct (argsort_last_max sc ltac:(destruct sc; [contradiction | discriminate]))
    as [pre [i [k [Ea [Hi [Hk Hmax]]]]]].
  assert (Hie : In i (elite_indices cfg sc)).
  { unfold elite_indices; rewrite Ea. apply py_slice_from_keeps_last; lia. }
  destruct (map_opt_in _ _ _ i Hel Hie) as [s [Hs Hsel]].
  destruct (breed_prefix _ _ _ _ _ _ _ _ _ Hbr) as [rest Hrest].
  assert (Hs' : In s (population st')) by (rewrite Hrest; apply in_or_app; left; exact Hsel).
  destruct (map_opt_in _ _ _ s Hsc' Hs') as [y [Hy Hyin]].
  destruct (map_opt_nth _ _ _ Hsc) as [Hlen Hnth].
  rewrite py_index_nonneg in Hs by exact Hi.
  destruct (i <? Z.of_nat (length (population st))); [|discriminate].
  destruct (Hnth _ _ Hs) as [y0 [Hy0 Hy0n]].
  rewrite Hy in Hy0; injection Hy0 as <-. rewrite Hk in Hy0n; injection Hy0n as <-.
  destruct (py_max_spec sc' b' Hb') as [_ Hall'].
  specialize (Hmax b Hbin). specialize (Hall' k Hyin). lia.
Qed.

Lemma best_fitness_non_decreasing_witness :
  exists st' sc sc' b b',
    (ga_iter small_config (ga_init small_config sample_rng) = Some (OContinue st') \/
     ga_iter small_config (ga_init small_config sample_rng) = Some (OLimit st')) /\
    map_opt calculate_fitness (population (ga_init small_config sample_rng)) = Some sc /\
    map_opt calculate_fitness (population st') = Some sc' /\
    py_max sc = Some b /\ py_max sc' = Some b' /\ b <= b'.
Proof.
  destruct (ga_iter small_config (ga_init small_config sample_rng)) as [[st'|st'|st']|] eqn:E;
    [vm_compute in E; discriminate E | vm_compute in E; discriminate E | | vm_compute in E; discriminate E].
  destruct (map_opt calculate_fitness (population (ga_init small_config sample_rng)))
    as [sc|] eqn:Esc; [|vm_compute in Esc; discriminate Esc].
  destruct (map_opt calculate_fitness (population st')) as [sc'|] eqn:Esc'.
  2: { vm_compute in E; injection E as <-; vm_compute in Esc'; discriminate Esc'. }
  destruct (py_max sc) as [b|] eqn:Eb; [|vm_compute in Esc; injection Esc as <-; discriminate Eb].
  destruct (py_max sc') as [b'|] eqn:Eb'.
  2: { vm_compute in E; injection E as <-; vm_compute in Esc'; injection Esc' as <-;
       discriminate Eb'. }
  exact (ex_intro _ st' (ex_intro _ sc (ex_intro _ sc' (ex_intro _ b (ex_intro _ b'
    (conj (or_introl eq_refl) (conj eq_refl (conj Esc' (conj Eb (conj Eb'
      (best_fitness_non_decreasing small_config _ st' sc sc' b b'
         (or_introl E) Esc Esc' Eb Eb'))))))))))).
Defined.

(** ** [calculate_fitness] raises on no well-formed schedule *)

Lemma fold_opt_total {A B} (step : B -> A -> option B) l acc :
  (forall b x, In x l -> step b x <> None) -> fold_opt step l acc <> None.
Proof.
  revert acc; induction l as [|x l IH]; intros acc H; cbn; [discriminate|].
  destruct (step acc x) as [acc'|] eqn:E.
  - apply IH; intros; apply H; right; assumption.
  - exfalso; exact (H acc x (or_introl eq_refl) E).
Qed.

Lemma map_opt_total {A B} (f : A -> option B) l :
  (forall x, In x l -> f x <> None) -> map_opt f l <> None.
Proof.
  induction l as [|x l IH]; intros H; cbn; [discriminate|].
  destruct (f x) as [y|] eqn:E; [|exfalso; exact (H x (or_introl eq_refl) E)].
  destruct (map_opt f l); [discriminate|]. exfalso; apply IH; [|reflexivity].
  intros; apply H; right; assumption.
Qed.

Lemma dict_get_set_same {K V} (keqb : K -> K -> bool) k (v : V) d :
  keqb k k = true -> dict_get keqb k (dict_set keqb k v d) = Some v.
Proof.
  intros Hk; induction d as [|[k' v'] d IH]; cbn; [rewrite Hk; reflexivity|].
  destruct (keqb k k') eqn:E; cbn; rewrite E; [reflexivity | exact IH].
Qed.

Lemma dict_get_set_keep {K V} (keqb : K -> K -> bool) k k' (v : V) d :
  dict_get keqb k' d <> None -> dict_get keqb k' (dict_set keqb k v d) <> None.
Proof.
  induction d as [|[k0 v0] d IH]; cbn; [contradiction|].
  destruct (keqb k k0); cbn; destruct (keqb k' k0); try discriminate; auto.
Qed.

Lemma pair_eqb_refl a : pair_eqb a a = true.
Proof. unfold pair_eqb; rewrite !Z.eqb_refl; reflexivity. Qed.

Lemma lookups_step_keeps lk p q : has_keys lk p -> has_keys (lookups_step lk q) p.
Proof.
  destruct p as [i [[[a r] t] f]], q as [i' [[[a' r'] t'] f']].
  unfold has_keys, lookups_step, dict_append; cbn [time_room_activities
    time_facilitator_activities facilitator_total_activities].
  intros [H1 [H2 H3]]; split; [|split]; apply dict_get_set_keep; assumption.
Qed.

Lemma lookups_step_adds lk p : has_keys (lookups_step lk p) p.
Proof.
  destruct p as [i [[[a r] t] f]].
  unfold has_keys, lookups_step, dict_append; cbn [time_room_activities
    time_facilitator_activities facilitator_total_activities].
  rewrite !dict_get_set_same by first [apply pair_eqb_refl | apply Z.eqb_refl].
  split; [|split]; discriminate.
Qed.

Lemma fold_lookups_has_keys l lk :
  (forall p, has_keys lk p -> has_keys (fold_left lookups_step l lk) p) /\
  (forall p, In p l -> has_keys (fold_left lookups_step l lk) p).
Proof.
  revert lk; induction l as [|q l IH]; intros lk; cbn; [split; [auto | intros p []]|].
  destruct (IH (lookups_step lk q)) as [Hk Hin]. split.
  - intros p Hp; apply Hk, lookups_step_keeps, Hp.
  - intros p [<-|Hp]; [apply Hk, lookups_step_adds | apply Hin, Hp].
Qed.

Lemma py_index_total {A} (l : list A) i : 0 <= i < Z.of_nat (length l) -> py_index l i <> None.
Proof.
  intros Hi; rewrite py_index_nonneg by lia.
  destruct (Z.ltb_spec i (Z.of_nat (length l))); [|lia].
  apply nth_error_Some; lia.
Qed.

(** A gene of a well-formed schedule, with its position. *)
Lemma schedule_ok_gene s i a :
  schedule_ok s -> In (i, a) (enumerate (assignments s)) ->
  0 <= i < Z.of_nat (length ACTIVITIES) /\ py_index (assignments s) i = Some a /\ gene_ok a.
Proof.
  intros [Hl Hf] Hin. destruct (enumerate_from_in 0 _ i a Hin) as [Hi Hn].
  rewrite Z.sub_0_r in Hn.
  assert (Hlt : (Z.to_nat i < length (assignments s))%nat)
    by (apply nth_error_Some; rewrite Hn; discriminate).
  split; [lia|]. split.
  - rewrite py_index_nonneg by exact Hi.
    destruct (Z.ltb_spec i (Z.of_nat (length (assignments s)))); [exact Hn | lia].
  - rewrite Forall_forall in Hf; apply Hf. eapply nth_error_In; exact Hn.
Qed.

Lemma fitness_activity_total s acc p :
  schedule_ok s -> In p (enumerate (assignments s)) ->
  fitness_activity (build_lookups s) acc p <> None.
Proof.
  intros Hs Hin. destruct p as [i a].
  destruct (schedule_ok_gene s i a Hs Hin) as [Hi [_ Ha]].
  pose proof (proj2 (fold_lookups_has_keys (enumerate (assignments s)) empty_lookups) _ Hin)
    as Hk.
  fold (build_lookups s) in Hk.
  destruct a as [[[a r] t] f]. destruct Ha as [Hr [Ht Hf]].
  destruct Hk as [K1 [K2 K3]]. unfold fitness_activity.
  destruct (py_index ACTIVITIES i) eqn:E1; [|exfalso; exact (py_index_total _ _ Hi E1)].
  destruct (py_index ROOMS r) eqn:E2; [|exfalso; exact (py_index_total _ _ Hr E2)].
  destruct (py_index FACILITATORS f) eqn:E3; [|exfalso; exact (py_index_total _ _ Hf E3)].
  destruct (dict_get pair_eqb (t, r) _) eqn:E4; [|contradiction].
  destruct (dict_get pair_eqb (t, f) _) eqn:E5; [|contradiction].
  destruct (dict_get Z.eqb f _) eqn:E6; [discriminate | contradiction].
Qed.

Lemma act_in_roman_beach_total s i a :
  schedule_ok s -> In (i, a) (enumerate (assignments s)) -> act_in_roman_beach s i <> None.
Proof.
  intros Hs Hin. destruct (schedule_ok_gene s i a Hs Hin) as [_ [E Ha]].
  unfold act_in_roman_beach; rewrite E.
  destruct a as [[[a r] t] f]. destruct Ha as [Hr _].
  destruct (py_index ROOMS r) eqn:E2; [discriminate | exfalso; exact (py_index_total _ _ Hr E2)].
Qed.

Lemma activities_at_in s t f i :
  In i (activities_at s t f) -> exists a, In (i, a) (enumerate (assignments s)).
Proof.
  unfold activities_at; intros H. apply in_map_iff in H as [[i' a] [<- H]].
  apply filter_In in H as [H _]. exists a; exact H.
Qed.

Lemma all_pairs_in l1 l2 i j : In (i, j) (all_pairs l1 l2) -> In i l1 /\ In j l2.
Proof.
  unfold all_pairs; intros H. apply in_flat_map in H as [x [Hx H]].
  apply in_map_iff in H as [y [E Hy]]. injection E as <- <-. split; assumption.
Qed.

Lemma facilitator_slots_fitness_total s acc it :
  schedule_ok s -> facilitator_slots_fitness s acc it <> None.
Proof.
  intros Hs. destruct it as [f slots]. unfold facilitator_slots_fitness.
  apply fold_opt_total. intros b [t1 t2] _. unfold consecutive_fitness.
  destruct (t2 - t1 =? 1); [|discriminate].
  apply fold_opt_total. intros b' [i j] Hij. apply all_pairs_in in Hij as [Hi Hj].
  apply activities_at_in in Hi as [ai Hi]. apply activities_at_in in Hj as [aj Hj].
  unfold building_pair_fitness; cbn [fst snd].
  destruct (act_in_roman_beach s i) eqn:E1; [|exfalso; exact (act_in_roman_beach_total _ _ _ Hs Hi E1)].
  destruct (act_in_roman_beach s j) eqn:E2; [discriminate|].
  exfalso; exact (act_in_roman_beach_total _ _ _ Hs Hj E2).
Qed.

Lemma activity_index_range nm i : activity_index nm = Some i -> 0 <= i < 11.
Proof.
  unfold activity_index.
  destruct (find _ (enumerate ACTIVITIES)) as [[i' a]|] eqn:E; cbn; [|discriminate].
  intros H; injection H as <-. apply find_some in E as [E _].
  destruct (enumerate_from_in 0 _ _ _ E) as [Hi Hn].
  assert (Hlt : (Z.to_nat (i' - 0) < length ACTIVITIES)%nat)
    by (apply nth_error_Some; rewrite Hn; discriminate).
  change (length ACTIVITIES) with 11%nat in Hlt. lia.
Qed.

Lemma room_time_of_total s i :
  schedule_ok s -> 0 <= i < 11 ->
  exists r t, room_time_of s i = Some (r, t) /\ 0 <= r < num_rooms.
Proof.
  intros [Hl Hf] Hi. unfold room_time_of.
  change (length ACTIVITIES) with 11%nat in Hl.
  rewrite py_index_nonneg by lia. rewrite Hl.
  destruct (Z.ltb_spec i (Z.of_nat 11)); [|lia].
  destruct (nth_error (assignments s) (Z.to_nat i)) as [[[[a r] t] f]|] eqn:E.
  - exists r, t; split; [reflexivity|].
    rewrite Forall_forall in Hf. apply nth_error_In in E. apply Hf in E as [Hr _]. exact Hr.
  - apply nth_error_None in E. lia.
Qed.

Lemma sla_fitness_total s acc : schedule_ok s -> sla_fitness s acc <> None.
Proof.
  intros Hs. unfold sla_fitness, sla_sections.
  destruct (activity_index "SLA101A") as [i1|] eqn:A1; [|vm_compute in A1; discriminate A1].
  destruct (activity_index "SLA101B") as [i2|] eqn:A2; [|vm_compute in A2; discriminate A2].
  destruct (activity_index "SLA191A") as [i3|] eqn:A3; [|vm_compute in A3; discriminate A3].
  destruct (activity_index "SLA191B") as [i4|] eqn:A4; [|vm_compute in A4; discriminate A4].
  destruct (room_time_of_total s i1 Hs (activity_index_range _ _ A1)) as [r1 [t1 [R1 H1]]].
  destruct (room_time_of_total s i2 Hs (activity_index_range _ _ A2)) as [r2 [t2 [R2 H2]]].
  destruct (room_time_of_total s i3 Hs (activity_index_range _ _ A3)) as [r3 [t3 [R3 H3]]].
  destruct (room_time_of_total s i4 Hs (activity_index_range _ _ A4)) as [r4 [t4 [R4 H4]]].
  rewrite R1, R2, R3, R4. cbn [fst snd].
  apply fold_opt_total. intros b c Hc. unfold sla_combos in Hc.
  assert (Hc' : exists ta ra tb rb, c = ((ta, ra), (tb, rb)) /\
            0 <= ra < num_rooms /\ 0 <= rb < num_rooms).
  { destruct Hc as [<-|[<-|[<-|[<-|[]]]]]; do 4 eexists;
      (split; [reflexivity | split; assumption]). }
  clear Hc. destruct Hc' as [ta [ra [tb [rb [-> [Ha Hb]]]]]].
  unfold sla_combo_fitness.
  destruct (Z.abs (ta - tb) =? 1); [|destruct (_ =? 2); [discriminate|];
                                       destruct (_ =? 0); discriminate].
  destruct (py_index ROOMS ra) eqn:E1; [|exfalso; exact (py_index_total _ _ Ha E1)].
  destruct (py_index ROOMS rb) eqn:E2; [discriminate | exfalso; exact (py_index_total _ _ Hb E2)].
Qed.

Lemma calculate_fitness_total s : schedule_ok s -> calculate_fitness s <> None.
Proof.
  intros Hs. unfold calculate_fitness.
  destruct (fold_opt (fitness_activity (build_lookups s)) _ 0) as [f1|] eqn:E1.
  2: { exfalso; revert E1; apply fold_opt_total; intros b p Hp.
       apply fitness_activity_total; assumption. }
  destruct (fold_opt (facilitator_slots_fitness s) _ f1) as [f2|] eqn:E2.
  2: { exfalso; revert E2; apply fold_opt_total; intros b it _.
       apply facilitator_slots_fitness_total; assumption. }
  apply sla_fitness_total; exact Hs.
Qed.

(** ** The generational loop never raises and keeps [POPULATION_SIZE] chromosomes *)

Lemma choice_loop_total k rem g : (k <= length rem)%nat -> choice_loop k rem g <> None.
Proof.
  revert rem g; induction k as [|k IH]; intros rem g Hk; cbn [choice_loop]; [discriminate|].
  destruct (rng_next g) as [d g1].
  assert (Hn : (Z.to_nat (d mod Z.of_nat (length rem)) < length rem)%nat).
  { pose proof (Z.mod_pos_bound d (Z.of_nat (length rem)) ltac:(lia)). lia. }
  destruct (list_pop_some _ rem Hn) as [x [rest Ep]]. rewrite Ep.
  pose proof (Permutation_length (list_pop_perm _ _ _ _ Ep)) as Hl; cbn in Hl.
  destruct (choice_loop k rest g1) as [[xs g2]|] eqn:Ec; [discriminate|].
  exfalso; exact (IH rest g1 ltac:(lia) Ec).
Qed.

Lemma py_max_key_total key l : l <> [] -> (forall x, In x l -> key x <> None) -> py_max_key key l <> None.
Proof.
  destruct l as [|b l]; intros Hne H; [contradiction|]. cbn.
  destruct (key b) as [kb|] eqn:Eb; [|exfalso; exact (H b (or_introl eq_refl) Eb)].
  assert (Hl : forall x, In x l -> key x <> None) by (intros; apply H; right; assumption).
  clear H Hne Eb. revert b kb; induction l as [|x l IH]; intros b kb; cbn; [discriminate|].
  destruct (key x) as [kx|] eqn:Ex; [|exfalso; exact (Hl x (or_introl eq_refl) Ex)].
  destruct (kb <? kx); apply IH; intros; apply Hl; right; assumption.
Qed.

Lemma tournament_selection_total cfg pop scores g :
  length scores = length pop -> (1 <= TOURNAMENT_SIZE cfg <= length pop)%nat ->
  exists s g', tournament_selection cfg pop scores g = Some (s, g') /\ In s pop.
Proof.
  intros Hls HT. unfold tournament_selection.
  destruct (rng_choice (length pop) (TOURNAMENT_SIZE cfg) g) as [[idxs g1]|] eqn:Ec.
  2: { exfalso; revert Ec; unfold rng_choice.
       destruct (Nat.ltb_spec (length pop) (TOURNAMENT_SIZE cfg)); [lia|].
       apply choice_loop_total. rewrite length_map, length_seq; lia. }
  destruct (rng_choice_spec _ _ _ _ _ Ec) as [Hl [_ Hr]].
  destruct (py_max_key (fun i => py_index scores i) idxs) as [b|] eqn:Em.
  2: { exfalso; revert Em; apply py_max_key_total.
       - intros E; rewrite E in Hl; cbn in Hl; lia.
       - intros x Hx; apply py_index_total. rewrite Hls; apply Hr; exact Hx. }
  destruct (py_max_key_spec _ _ _ Em) as [Hb _].
  specialize (Hr b Hb). rewrite py_index_nonneg by lia.
  destruct (Z.ltb_spec b (Z.of_nat (length pop))); [|lia].
  destruct (nth_error pop (Z.to_nat b)) as [s|] eqn:En.
  - exists s, g1; split; [reflexivity | eapply nth_error_In; exact En].
  - apply nth_error_None in En; lia.
Qed.

Lemma breed_total cfg r pop scores rate acc g :
  length scores = length pop -> (1 <= TOURNAMENT_SIZE cfg <= length pop)%nat ->
  Forall schedule_ok pop -> Forall schedule_ok acc ->
  exists res g', breed cfg r pop scores rate acc g = Some (res, g') /\
    length res = (length acc + r)%nat /\ Forall schedule_ok res.
Proof.
  intros Hls HT Hpop. revert acc g; induction r as [r IH] using lt_wf_ind; intros acc g Hacc.
  destruct r as [|r']; cbn [breed].
  - exists acc, g; split; [reflexivity|]; split; [lia | exact Hacc].
  - destruct (tournament_selection_total cfg pop scores g Hls HT) as [p1 [g1 [E1 H1]]].
    rewrite E1.
    destruct (tournament_selection_total cfg pop scores g1 Hls HT) as [p2 [g2 [E2 H2]]].
    rewrite E2.
    rewrite Forall_forall in Hpop.
    pose proof (crossover_ok p1 p2 g2 (Hpop p1 H1) (Hpop p2 H2)) as [Hc1 Hc2].
    destruct (crossover p1 p2 g2) as [[c1 c2] g3]; cbn [fst snd] in Hc1, Hc2.
    pose proof (mutate_ok c1 rate g3 Hc1) as Hm1.
    destruct (mutate c1 rate g3) as [c1' g4]; cbn [fst] in Hm1.
    pose proof (mutate_ok c2 rate g4 Hc2) as Hm2.
    destruct (mutate c2 rate g4) as [c2' g5]; cbn [fst] in Hm2.
    destruct r' as [|r''].
    + exists (acc ++ [c1']), g5; split; [reflexivity|].
      rewrite length_app; cbn; split; [lia|]. apply Forall_app; split; [exact Hacc | apply Forall_cons; [exact Hm1 | apply Forall_nil]].
    + destruct (IH r'' ltac:(lia) (acc ++ [c1'] ++ [c2']) g5) as [res [g' [E [Hl Hok]]]].
      { apply Forall_app; split; [exact Hacc|]. cbn.
        apply Forall_cons; [exact Hm1 | apply Forall_cons; [exact Hm2 | apply Forall_nil]]. }
      exists res, g'. rewrite <- app_assoc. split; [exact E|]. split; [|exact Hok].
      rewrite Hl, !length_app; cbn; lia.
Qed.

Lemma in_py_slice_from {A} c (l : list A) x : In x (py_slice_from c l) -> In x l.
Proof.
  unfold py_slice_from; intros H.
  match type of H with In x (skipn ?k l) =>
    rewrite <- (firstn_skipn k l); apply in_or_app; right; exact H end.
Qed.

Lemma length_py_slice_from {A} c (l : list A) : (length (py_slice_from c l) <= length l)%nat.
Proof. unfold py_slice_from; rewrite length_skipn; lia. Qed.

Lemma argsort_in scores i : In i (argsort scores) -> 0 <= i < Z.of_nat (length scores).
Proof.
  unfold argsort; intros H. apply in_map_iff in H as [[i' k] [<- H]].
  eapply Permutation_in in H; [|apply sort_by_score_perm].
  destruct (enumerate_from_in 0 _ _ _ H) as [Hi Hn]. cbn [fst].
  assert (Hlt : (Z.to_nat (i' - 0) < length scores)%nat)
    by (apply nth_error_Some; rewrite Hn; discriminate). lia.
Qed.

Lemma length_argsort scores : length (argsort scores) = length scores.
Proof.
  unfold argsort. rewrite length_map, (Permutation_length (sort_by_score_perm _)).
  apply length_enumerate_from.
Qed.

Lemma elites_total cfg pop scores :
  length scores = length pop -> Forall schedule_ok pop ->
  exists elites, map_opt (py_index pop) (elite_indices cfg scores) = Some elites /\
    (length elites <= length pop)%nat /\ Forall schedule_ok elites.
Proof.
  intros Hls Hpop.
  destruct (map_opt (py_index pop) (elite_indices cfg scores)) as [elites|] eqn:E.
  - exists elites; split; [reflexivity|].
    destruct (map_opt_nth _ _ _ E) as [Hl _]. split.
    + rewrite Hl. unfold elite_indices.
      pose proof (length_py_slice_from (- Z.of_nat (Nat.div (POPULATION_SIZE cfg) 10))
                    (argsort scores)).
      rewrite length_argsort in H. lia.
    + apply Forall_forall. intros s Hs. apply In_nth_error in Hs as [n Hn].
      assert (Hlt : (n < length elites)%nat) by (apply nth_error_Some; rewrite Hn; discriminate).
      rewrite Hl in Hlt. apply nth_error_Some in Hlt.
      destruct (nth_error (elite_indices cfg scores) n) as [i|] eqn:Ei; [|contradiction].
      destruct (proj2 (map_opt_nth _ _ _ E) n i Ei) as [s' [Hs' Hn']].
      rewrite Hn in Hn'; injection Hn' as <-.
      assert (Hi : 0 <= i < Z.of_nat (length pop)).
      { rewrite <- Hls. apply argsort_in. eapply in_py_slice_from. eapply nth_error_In; exact Ei. }
      rewrite py_index_nonneg in Hs' by lia.
      destruct (Z.ltb_spec i (Z.of_nat (length pop))); [|lia].
      rewrite Forall_forall in Hpop. apply Hpop. eapply nth_error_In; exact Hs'.
  - exfalso; revert E; apply map_opt_total. intros i Hi. apply py_index_total.
    rewrite <- Hls. apply argsort_in. eapply in_py_slice_from. exact Hi.
Qed.

Lemma random_population_ok k g :
  length (fst (random_population k g)) = k /\ Forall schedule_ok (fst (random_population k g)).
Proof.
  revert g; induction k as [|k IH]; intros g; cbn [random_population]; [split; [reflexivity | constructor]|].
  pose proof (create_random_schedule_ok g) as Hs.
  destruct (create_random_schedule g) as [s g1]; cbn [fst] in Hs.
  destruct (IH g1) as [Hl Hf]. destruct (random_population k g1) as [rest g2]; cbn [fst] in *.
  split; [cbn; lia | constructor; assumption].
Qed.

Lemma ga_iter_total cfg st :
  (1 <= TOURNAMENT_SIZE cfg <= POPULATION_SIZE cfg)%nat ->
  length (population st) = POPULATION_SIZE cfg -> Forall schedule_ok (population st) ->
  exists o, ga_iter cfg st = Some o /\
    forall st', o = OContinue st' \/ o = OLimit st' ->
      length (population st') = POPULATION_SIZE cfg /\ Forall schedule_ok (population st').
Proof.
  intros HT Hl Hok. unfold ga_iter.
  destruct (map_opt calculate_fitness (population st)) as [sc|] eqn:Esc.
  2: { exfalso; revert Esc; apply map_opt_total; intros s Hs.
       apply calculate_fitness_total. rewrite Forall_forall in Hok; apply Hok, Hs. }
  pose proof (proj1 (map_opt_nth _ _ _ Esc)) as Hls.
  destruct sc as [|x sc'] eqn:Esc'; [cbn in Hls; lia|]. rewrite <- Esc' in *.
  assert (Eb : py_max sc = Some (fold_left Z.max sc' x)) by (subst sc; reflexivity).
  assert (Ew : py_min sc = Some (fold_left Z.min sc' x)) by (subst sc; reflexivity).
  rewrite Eb, Ew. cbn [population generation mutation_rate previous_avg_fitness rng].
  destruct (converged cfg _ _).
  { eexists; split; [reflexivity | intros st' [H|H]; discriminate]. }
  destruct (elites_total cfg (population st) sc Hls Hok) as [elites [Ee [Hle Hoke]]].
  rewrite Ee.
  match goal with |- context [breed ?c ?r ?p ?s ?rt ?a ?g] =>
    destruct (breed_total c r p s rt a g Hls ltac:(lia) Hok Hoke) as [res [g' [Ebr [Hlr Hokr]]]];
    rewrite Ebr
  end.
  destruct (1000 <=? _); (eexists; split; [reflexivity|]);
    intros st' [H|H]; try discriminate H; injection H as <-; cbn [population];
    (split; [lia | exact Hokr]).
Qed.

Lemma ga_run_from cfg :
  (1 <= TOURNAMENT_SIZE cfg <= POPULATION_SIZE cfg)%nat ->
  forall n st, Z.to_nat (1000 - generation st) = n -> generation st < 1000 ->
  length (population st) = POPULATION_SIZE cfg -> Forall schedule_ok (population st) ->
  exists stf h, ga_run cfg st stf h /\
    (h = Converged \/ (h = LimitReached /\ generation stf = 1000)).
Proof.
  intros HT n. induction n as [n IH] using lt_wf_ind. intros st Hn Hg Hl Hok.
  destruct (ga_iter_total cfg st HT Hl Hok) as [o [Eo Hnext]].
  destruct o as [st'|st'|st'].
  - exists st', Converged; split; [apply run_converged; exact Eo | left; reflexivity].
  - destruct (ga_iter_inv cfg st st' (or_intror Eo))
      as [_ [_ [_ [_ [_ [_ [_ [_ [_ [_ [_ [Hg' Hlim]]]]]]]]]]]].
    apply Hlim in Eo as Hge.
    exists st', LimitReached; split; [apply run_limit; exact Eo | right; split; [reflexivity | lia]].
  - destruct (ga_iter_inv cfg st st' (or_introl Eo))
      as [_ [_ [_ [_ [_ [_ [_ [_ [_ [_ [_ [Hg' Hlim]]]]]]]]]]]].
    assert (Hlt : generation st + 1 < 1000).
    { destruct (Z.ltb_spec (generation st + 1) 1000) as [H|H]; [exact H|].
      apply Hlim in H. rewrite Eo in H. discriminate H. }
    destruct (Hnext st' (or_introl eq_refl)) as [Hl' Hok'].
    destruct (IH (Z.to_nat (1000 - generation st')) ltac:(lia) st' eq_refl ltac:(lia) Hl' Hok')
      as [stf [h [Hrun Hh]]].
    exists stf, h; split; [eapply run_continue; [exact Eo | exact Hrun] | exact Hh].
Qed.

(** C6: with a tournament size between 1 and the population size (the
    source's constants: 5 and 500), the generational loop started from the
    initial state always stops: either at the convergence check, or at the
    safety limit, with the generation counter at exactly 1000.  So when the
    convergence check never fires, the loop stops after 1000 generations. *)
Theorem ga_stops_at_generation_limit cfg g :
  (1 <= TOURNAMENT_SIZE cfg <= POPULATION_SIZE cfg)%nat ->
  exists stf h, ga_run cfg (ga_init cfg g) stf h /\
    (h = Converged \/ (h = LimitReached /\ generation stf = 1000)).
Proof.
  intros HT. pose proof (random_population_ok (POPULATION_SIZE cfg) g) as [Hl Hok].
  unfold ga_init. destruct (random_population (POPULATION_SIZE cfg) g) as [pop g'].
  cbn [fst] in Hl, Hok.
  apply (ga_run_from cfg HT _ _ eq_refl); cbn [generation population]; [lia | exact Hl | exact Hok].
Qed.

Lemma ga_stops_at_generation_limit_witness :
  (1 <= TOURNAMENT_SIZE default_config <= POPULATION_SIZE default_config)%nat /\
  exists stf h, ga_run default_config (ga_init default_config sample_rng) stf h /\
    (h = Converged \/ (h = LimitReached /\ generation stf = 1000)).
Proof.
  split; [cbn; lia|]. apply (ga_stops_at_generation_limit default_config sample_rng). cbn; lia.
Defined.

(** ** No configuration check; the loop raises only in tournament selection *)

Lemma oversized_tournament_fails_in_loop :
  population (ga_init oversized_tournament_config sample_rng) <> [] /\
  ga_iter oversized_tournament_config (ga_init oversized_tournament_config sample_rng) = None.
Proof. split; vm_compute; [discriminate | reflexivity]. Qed.

Lemma tournament_selection_fails pop scores cfg g :
  length scores = length pop ->
  tournament_selection cfg pop scores g = None <->
  (TOURNAMENT_SIZE cfg = 0 \/ length pop < TOURNAMENT_SIZE cfg)%nat.
Proof.
  intros Hls. split.
  - intros H. destruct (Nat.eq_dec (TOURNAMENT_SIZE cfg) 0) as [E|E]; [left; exact E | right].
    destruct (Nat.lt_ge_cases (length pop) (TOURNAMENT_SIZE cfg)) as [Hlt|Hge]; [exact Hlt|].
    destruct (tournament_selection_total cfg pop scores g Hls ltac:(lia)) as [s [g' [E' _]]].
    rewrite H in E'; discriminate E'.
  - intros [H|H]; unfold tournament_selection, rng_choice.
    + rewrite H. destruct (Nat.ltb (length pop) 0); reflexivity.
    + destruct (Nat.ltb_spec (length pop) (TOURNAMENT_SIZE cfg)); [reflexivity | lia].
Qed.

(** C7 (amended): the parameters are module constants that nothing
    validates.  Inside the loop, tournament selection raises exactly when
    [TOURNAMENT_SIZE] is 0 or exceeds the population; with
    [1 <= TOURNAMENT_SIZE <= POPULATION_SIZE] and a population of
    [POPULATION_SIZE] well-formed chromosomes, a pass never raises. *)
Theorem loop_fails_only_in_tournament cfg :
  (forall pop scores g, length scores = length pop ->
     tournament_selection cfg pop scores g = None <->
     (TOURNAMENT_SIZE cfg = 0 \/ length pop < TOURNAMENT_SIZE cfg)%nat) /\
  ((1 <= TOURNAMENT_SIZE cfg <= POPULATION_SIZE cfg)%nat ->
   forall st, length (population st) = POPULATION_SIZE cfg ->
     Forall schedule_ok (population st) -> ga_iter cfg st <> None).
Proof.
  split.
  - intros pop scores g Hls. apply tournament_selection_fails; exact Hls.
  - intros HT st Hl Hok. destruct (ga_iter_total cfg st HT Hl Hok) as [o [E _]].
    rewrite E; discriminate.
Qed.

Lemma loop_fails_only_in_tournament_witness :
  (TOURNAMENT_SIZE oversized_tournament_config = 0 \/
   length sample_population < TOURNAMENT_SIZE oversized_tournament_config)%nat /\
  ga_iter default_config (ga_init default_config sample_rng) <> None.
Proof.
  split.
  - apply (proj1 (proj1 (loop_fails_only_in_tournament oversized_tournament_config)
                    sample_population [-300; -120; 45; -80; 10; -5] sample_rng eq_refl)).
    vm_compute; reflexivity.
  - pose proof (random_population_ok (POPULATION_SIZE default_config) sample_rng) as [Hl Hok].
    unfold ga_init.
    destruct (random_population (POPULATION_SIZE default_config) sample_rng) as [pop g'].
    apply (proj2 (loop_fails_only_in_tournament default_config)); cbn [population fst] in *;
      [cbn; lia | exact Hl | exact Hok].
Defined.

(* ================================================================== *)
(** * Further properties of the engine *)

(** Every pass records one entry in each history; a pass that stops at the
    convergence check keeps the population, generation and rate. *)
Lemma ga_iter_out cfg st o :
  ga_iter cfg st = Some o ->
  exists sc b w,
    map_opt calculate_fitness (population st) = Some sc /\
    py_max sc = Some b /\ py_min sc = Some w /\
    forall st', o = OConverged st' \/ o = OContinue st' \/ o = OLimit st' ->
      best_fitness_history st' = best_fitness_history st ++ [b] /\
      avg_fitness_history st' = avg_fitness_history st ++ [mean_points sc] /\
      worst_fitness_history st' = worst_fitness_history st ++ [w] /\
      generation_history st' = generation_history st ++ [generation st] /\
      (o = OConverged st' ->
         population st' = population st /\ generation st' = generation st /\
         mutation_rate st' = mutation_rate st /\
         converged cfg (generation st)
           (improvement_of (generation st) (previous_avg_fitness st) (mean_points sc)) = true) /\
      (o <> OConverged st' ->
         generation st' = generation st + 1 /\
         mutation_rate st' = adapt_rate (generation st)
           (improvement_of (generation st) (previous_avg_fitness st) (mean_points sc))
           (mutation_rate st)).
Proof.
  intros H. unfold ga_iter in H.
  destruct (map_opt calculate_fitness (population st)) as [sc|] eqn:Esc; [|discriminate].
  destruct (py_max sc) as [b|] eqn:Eb; [|discriminate].
  destruct (py_min sc) as [w|] eqn:Ew; [|discriminate].
  exists sc, b, w. do 3 (split; [first [reflexivity | assumption]|]).
  intros st' Ho.
  cbn [generation previous_avg_fitness population mutation_rate rng best_fitness_history
       avg_fitness_history worst_fitness_history generation_history] in H.
  destruct (converged cfg _ _) eqn:Ec.
  - injection H as <-. destruct Ho as [E|[E|E]]; try discriminate E. injection E as <-.
    cbn [generation previous_avg_fitness population mutation_rate rng best_fitness_history
         avg_fitness_history worst_fitness_history generation_history].
    repeat (split; [reflexivity|]). split.
    + intros _; repeat (split; [reflexivity|]); first [reflexivity | exact Ec].
    + intros Hne; exfalso; apply Hne; reflexivity.
  - destruct (map_opt (py_index (population st)) _) as [elites|]; [|discriminate].
    destruct (breed _ _ _ _ _ _ _) as [[next g]|]; [|discriminate].
    destruct (1000 <=? generation st + 1); injection H as <-;
      (destruct Ho as [E|[E|E]]; try discriminate E; injection E as <-);
      cbn [generation previous_avg_fitness population mutation_rate rng best_fitness_history
           avg_fitness_history worst_fitness_history generation_history];
      (repeat (split; [reflexivity|])); (split; [intros E; discriminate E|]);
      intros _; split; reflexivity.
Qed.

Lemma breed_length cfg r pop scores rate acc g res g' :
  breed cfg r pop scores rate acc g = Some (res, g') -> length res = (length acc + r)%nat.
Proof.
  revert acc g; induction r as [r IH] using lt_wf_ind; intros acc g H.
  destruct r as [|r']; cbn [breed] in H.
  - injection H as <- _. lia.
  - destruct (tournament_selection cfg pop scores g) as [[p1 g1]|]; [|discriminate].
    destruct (tournament_selection cfg pop scores g1) as [[p2 g2]|]; [|discriminate].
    destruct (crossover p1 p2 g2) as [[c1 c2] g3].
    destruct (mutate c1 rate g3) as [c1' g4]. destruct (mutate c2 rate g4) as [c2' g5].
    destruct r' as [|r''].
    + cbn iota in H; injection H as <- _. rewrite length_app; cbn; lia.
    + apply IH in H; [|lia]. rewrite H, !length_app; cbn; lia.
Qed.

(** [POPULATION_SIZE - len(next_generation)] children are appended:
    the second child of the last pair is dropped when one place is left,
    so the next population has exactly [POPULATION_SIZE] chromosomes. *)
Theorem ga_iter_population_size cfg st st' :
  length (population st) = POPULATION_SIZE cfg ->
  ga_iter cfg st = Some (OContinue st') \/ ga_iter cfg st = Some (OLimit st') ->
  length (population st') = POPULATION_SIZE cfg.
Proof.
  intros Hl Hit.
  destruct (ga_iter_inv cfg st st' Hit)
    as [sc [b [w [elites [g [Hsc [_ [_ [_ [Hel [Hbr _]]]]]]]]]]].
  apply breed_length in Hbr.
  destruct (map_opt_nth _ _ _ Hel) as [Hle _].
  destruct (map_opt_nth _ _ _ Hsc) as [Hls _].
  pose proof (length_py_slice_from (- Z.of_nat (Nat.div (POPULATION_SIZE cfg) 10))
                (argsort sc)) as Hs.
  rewrite length_argsort in Hs. unfold elite_indices in Hle. lia.
Qed.

Lemma ga_iter_population_size_witness :
  length (population (ga_init small_config sample_rng)) = POPULATION_SIZE small_config /\
  exists st', ga_iter small_config (ga_init small_config sample_rng) = Some (OContinue st') /\
    length (population st') = POPULATION_SIZE small_config.
Proof.
  assert (Hl : length (population (ga_init small_config sample_rng)) = POPULATION_SIZE small_config)
    by (vm_compute; reflexivity).
  split; [exact Hl|].
  destruct (ga_iter small_config (ga_init small_config sample_rng)) as [[st'|st'|st']|] eqn:E;
    try (vm_compute in E; discriminate E).
  exists st'. split; [reflexivity|].
  exact (ga_iter_population_size small_config _ st' Hl (or_introl E)).
Defined.

(** One pass never lowers the best fitness; used by the run-level proofs. *)
Lemma best_fitness_step cfg st st' sc sc' b b' :
  ga_iter cfg st = Some (OContinue st') \/ ga_iter cfg st = Some (OLimit st') ->
  map_opt calculate_fitness (population st) = Some sc ->
  map_opt calculate_fitness (population st') = Some sc' ->
  py_max sc = Some b -> py_max sc' = Some b' ->
  b <= b'.
Proof.
  intros Hit Hsc Hsc' Hb Hb'.
  destruct (ga_iter_inv cfg st st' Hit)
    as [sc0 [b0 [w0 [elites [g [Hsc0 [_ [_ [_ [Hel [Hbr _]]]]]]]]]]].
  rewrite Hsc in Hsc0; injection Hsc0 as <-.
  destruct (py_max_spec sc b Hb) as [Hbin _].
  destruct (argsort_last_max sc ltac:(destruct sc; [contradiction | discriminate]))
    as [pre [i [k [Ea [Hi [Hk Hmax]]]]]].
  assert (Hie : In i (elite_indices cfg sc)).
  { unfold elite_indices; rewrite Ea. apply py_slice_from_keeps_last; lia. }
  destruct (map_opt_in _ _ _ i Hel Hie) as [s [Hs Hsel]].
  destruct (breed_prefix _ _ _ _ _ _ _ _ _ Hbr) as [rest Hrest].
  assert (Hs' : In s (population st')) by (rewrite Hrest; apply in_or_app; left; exact Hsel).
  destruct (map_opt_in _ _ _ s Hsc' Hs') as [y [Hy Hyin]].
  destruct (map_opt_nth _ _ _ Hsc) as [Hlen Hnth].
  rewrite py_index_nonneg in Hs by exact Hi.
  destruct (i <? Z.of_nat (length (population st))); [|discriminate].
  destruct (Hnth _ _ Hs) as [y0 [Hy0 Hy0n]].
  rewrite Hy in Hy0; injection Hy0 as <-. rewrite Hk in Hy0n; injection Hy0n as <-.
  destruct (py_max_spec sc' b' Hb') as [_ Hall'].
  specialize (Hmax b Hbin). specialize (Hall' k Hyin). lia.
Qed.

Lemma StronglySorted_snoc (l : list Z) x :
  StronglySorted Z.le l -> Forall (fun y => y <= x) l -> StronglySorted Z.le (l ++ [x]).
Proof.
  induction l as [|y l IH]; intros Hs Hf; cbn.
  - repeat constructor.
  - inversion Hs as [|? ? Hs' Hf']; subst. inversion Hf as [|? ? Hy Hf'']; subst.
    constructor; [apply IH; assumption|].
    apply Forall_app; split; [exact Hf' | constructor; [exact Hy | constructor]].
Qed.

Lemma best_history_inv_step cfg st o st' :
  best_history_inv st -> ga_iter cfg st = Some o ->
  o = OConverged st' \/ o = OContinue st' \/ o = OLimit st' -> best_history_inv st'.
Proof.
  intros [Hs Hall] Hit Ho.
  destruct (ga_iter_out cfg st o Hit) as [sc [b [w [Hsc [Hb [Hw Hout]]]]]].
  destruct (Hout st' Ho) as [Eb [_ [_ [_ [Hconv Hnconv]]]]].
  specialize (Hall sc b Hsc Hb).
  split; [rewrite Eb; apply StronglySorted_snoc; assumption|].
  intros sc' b' Hsc' Hb'. rewrite Eb.
  assert (Hle : b <= b').
  { destruct Ho as [E|[E|E]].
    - destruct (Hconv E) as [Ep _]. rewrite Ep, Hsc in Hsc'. injection Hsc' as <-.
      rewrite Hb in Hb'. injection Hb' as <-. lia.
    - subst o. exact (best_fitness_step cfg st st' sc sc' b b' (or_introl Hit) Hsc Hsc' Hb Hb').
    - subst o. exact (best_fitness_step cfg st st' sc sc' b b' (or_intror Hit) Hsc Hsc' Hb Hb'). }
  apply Forall_app; split; [|constructor; [exact Hle | constructor]].
  eapply Forall_impl; [|exact Hall]. intros y Hy; cbn in Hy; lia.
Qed.

Lemma best_history_inv_run cfg st stf h :
  ga_run cfg st stf h -> best_history_inv st -> best_history_inv stf.
Proof.
  induction 1 as [st st' Hit|st st' Hit|st st' stf h Hit Hrun IH]; intros Hinv.
  - exact (best_history_inv_step cfg st _ st' Hinv Hit (or_introl eq_refl)).
  - exact (best_history_inv_step cfg st _ st' Hinv Hit (or_intror (or_intror eq_refl))).
  - apply IH. exact (best_history_inv_step cfg st _ st' Hinv Hit (or_intror (or_introl eq_refl))).
Qed.

Lemma best_history_inv_init cfg g : best_history_inv (ga_init cfg g).
Proof.
  unfold ga_init. destruct (random_population _ g). split; [constructor | intros; constructor].
Qed.

Lemma quick_run :
  exists stf, ga_iter quick_config (ga_init quick_config sample_rng) = Some (OConverged stf).
Proof.
  destruct (ga_iter quick_config (ga_init quick_config sample_rng)) as [[st'|st'|st']|] eqn:E;
    try (vm_compute in E; discriminate E).
  exists st'; reflexivity.
Defined.



Lemma argmax_from_spec (l pre t : list Z) i bi b :
  l = pre ++ t -> i = Z.of_nat (length pre) -> 0 <= bi < i ->
  nth_error l (Z.to_nat bi) = Some b -> (forall z, In z pre -> z <= b) ->
  let r := argmax_from i bi b t in
  0 <= r < Z.of_nat (length l) /\ exists m, nth_error l (Z.to_nat r) = Some m /\
    forall z, In z l -> z <= m.
Proof.
  revert pre i bi b; induction t as [|x t IH]; intros pre i bi b El Ei Hbi Hn Hall; cbn.
  - rewrite app_nil_r in El; subst l. split; [lia|]. exists b; split; [exact Hn | exact Hall].
  - destruct (Z.ltb_spec b x).
    + apply (IH (pre ++ [x])); [rewrite El, <- app_assoc; reflexivity | rewrite length_app; cbn; lia
            | lia | | ].
      * rewrite El, Ei, Nat2Z.id, nth_error_app2, Nat.sub_diag by lia. reflexivity.
      * intros z Hz. apply in_app_or in Hz as [Hz|[<-|[]]]; [specialize (Hall z Hz); lia | lia].
    + apply (IH (pre ++ [x])); [rewrite El, <- app_assoc; reflexivity | rewrite length_app; cbn; lia
            | lia | exact Hn | ].
      intros z Hz. apply in_app_or in Hz as [Hz|[<-|[]]]; [apply Hall, Hz | lia].
Qed.

Lemma np_argmax_spec l r :
  np_argmax l = Some r ->
  0 <= r < Z.of_nat (length l) /\ exists m, py_index l r = Some m /\ forall z, In z l -> z <= m.
Proof.
  destruct l as [|x t]; cbn; [discriminate|]. intros H; injection H as <-.
  destruct (argmax_from_spec (x :: t) [x] t 1 0 x eq_refl eq_refl ltac:(lia) eq_refl
              ltac:(intros z [<-|[]]; lia)) as [Hr [m [Hm Hall]]].
  split; [exact Hr|]. exists m; split; [|exact Hall].
  rewrite py_index_nonneg by lia. destruct (Z.ltb_spec (argmax_from 1 0 x t) (Z.of_nat (length (x :: t))));
    [exact Hm | lia].
Qed.

(** [run_genetic_algorithm] returns a chromosome of the final population
    with its fitness, which is the largest fitness of that population and
    at least every entry of [best_fitness_history]. *)
Theorem final_result_best cfg g stf h s f :
  ga_run cfg (ga_init cfg g) stf h -> final_result stf = Some (s, f) ->
  calculate_fitness s = Some f /\ In s (population stf) /\
  (forall s', In s' (population stf) -> exists f', calculate_fitness s' = Some f' /\ f' <= f) /\
  Forall (fun b => b <= f) (best_fitness_history stf).
Proof.
  intros Hrun Hf.
  destruct (best_history_inv_run cfg _ stf h Hrun (best_history_inv_init cfg g)) as [_ Hinv].
  unfold final_result in Hf.
  destruct (map_opt calculate_fitness (population stf)) as [sc|] eqn:Esc; [|discriminate].
  destruct (np_argmax sc) as [i|] eqn:Ei; [|discriminate].
  destruct (py_index (population stf) i) as [s0|] eqn:Es; [|discriminate].
  destruct (py_index sc i) as [f0|] eqn:Ef; [|discriminate].
  injection Hf as <- <-.
  destruct (np_argmax_spec sc i Ei) as [Hi [m [Hm Hall]]].
  rewrite Hm in Ef; injection Ef as <-.
  destruct (map_opt_nth _ _ _ Esc) as [Hls Hnth].
  rewrite py_index_nonneg in Es by lia. rewrite py_index_nonneg in Hm by lia.
  destruct (Z.ltb_spec i (Z.of_nat (length (population stf)))); [|discriminate].
  destruct (Z.ltb_spec i (Z.of_nat (length sc))); [|discriminate].
  destruct (Hnth _ _ Es) as [y [Hy Hyn]]. rewrite Hm in Hyn; injection Hyn as ->.
  split; [exact Hy|]. split; [eapply nth_error_In; exact Es|]. split.
  - intros s' Hs'. destruct (map_opt_in _ _ _ s' Esc Hs') as [f' [Hf' Hin]].
    exists f'; split; [exact Hf' | apply Hall, Hin].
  - destruct sc as [|x t] eqn:Esc'; [cbn in *; lia|]. rewrite <- Esc' in *.
    assert (Eb : py_max sc = Some (fold_left Z.max t x)) by (subst sc; reflexivity).
    specialize (Hinv sc _ eq_refl Eb).
    destruct (py_max_spec sc _ Eb) as [Hbin _]. specialize (Hall _ Hbin).
    eapply Forall_impl; [|exact Hinv]. intros z Hz; cbn in Hz; lia.
Qed.

Lemma final_result_best_witness :
  exists stf h s f, ga_run quick_config (ga_init quick_config sample_rng) stf h /\
    final_result stf = Some (s, f) /\
    calculate_fitness s = Some f /\ In s (population stf) /\
    (forall s', In s' (population stf) -> exists f', calculate_fitness s' = Some f' /\ f' <= f) /\
    Forall (fun b => b <= f) (best_fitness_history stf).
Proof.
  destruct quick_run as [stf E]. pose proof (run_converged _ _ _ E) as Hr.
  destruct (final_result stf) as [[s f]|] eqn:Ef.
  2: { vm_compute in E; injection E as <-; vm_compute in Ef; discriminate Ef. }
  exact (ex_intro _ stf (ex_intro _ Converged (ex_intro _ s (ex_intro _ f
    (conj Hr (conj Ef (final_result_best quick_config sample_rng stf Converged s f Hr Ef))))))).
Defined.















Lemma py_index_some_iff {A} (l : list A) i :
  py_index l i <> None <-> - Z.of_nat (length l) <= i < Z.of_nat (length l).
Proof.
  unfold py_index.
  destruct (Z.leb_spec 0 i); destruct (Z.ltb_spec i (Z.of_nat (length l))); cbn [andb].
  - rewrite nth_error_Some; lia.
  - destruct (Z.ltb_spec i 0); [lia|]. rewrite andb_false_r. split; [congruence | lia].
  - destruct (Z.leb_spec (- Z.of_nat (length l)) i); destruct (Z.ltb_spec i 0); cbn [andb];
      try lia.
    + rewrite nth_error_Some; lia.
    + split; [congruence | lia].
  - lia.
Qed.

Lemma fold_opt_some_each {A B} (step : B -> A -> option B) l acc r :
  fold_opt step l acc = Some r -> forall x, In x l -> exists b, step b x <> None.
Proof.
  revert acc; induction l as [|y l IH]; intros acc H x Hx; [destruct Hx|].
  cbn in H. destruct (step acc y) as [acc'|] eqn:E; [|discriminate].
  destruct Hx as [<-|Hx]; [exists acc; rewrite E; discriminate | exact (IH acc' H x Hx)].
Qed.

Lemma enumerate_gene {A} (l : list A) i a :
  In (i, a) (enumerate l) -> 0 <= i < Z.of_nat (length l) /\ py_index l i = Some a /\ In a l.
Proof.
  intros Hin. destruct (enumerate_from_in 0 _ i a Hin) as [Hi Hn]. rewrite Z.sub_0_r in Hn.
  assert (Hlt : (Z.to_nat i < length l)%nat)
    by (apply nth_error_Some; rewrite Hn; discriminate).
  split; [lia|]. split; [|eapply nth_error_In; exact Hn].
  rewrite py_index_nonneg by exact Hi.
  destruct (Z.ltb_spec i (Z.of_nat (length l))); [exact Hn | lia].
Qed.

Lemma fitness_activity_indices lk b i x r t f :
  fitness_activity lk b (i, (x, r, t, f)) <> None ->
  py_index ACTIVITIES i <> None /\ py_index ROOMS r <> None /\ py_index FACILITATORS f <> None.
Proof.
  unfold fitness_activity; intros H.
  destruct (py_index ACTIVITIES i); [|exfalso; apply H; reflexivity].
  destruct (py_index ROOMS r); [|exfalso; apply H; reflexivity].
  destruct (py_index FACILITATORS f); [|exfalso; apply H; reflexivity].
  split; [|split]; discriminate.
Qed.

Lemma fitness_activity_fit s acc p :
  (length (assignments s) <= 11)%nat -> Forall gene_indexable (assignments s) ->
  In p (enumerate (assignments s)) -> fitness_activity (build_lookups s) acc p <> None.
Proof.
  intros Hl Hs Hin. destruct p as [i a].
  destruct (enumerate_gene _ i a Hin) as [Hi [_ Ha]].
  rewrite Forall_forall in Hs. specialize (Hs a Ha).
  pose proof (proj2 (fold_lookups_has_keys (enumerate (assignments s)) empty_lookups) _ Hin)
    as Hk.
  fold (build_lookups s) in Hk.
  destruct a as [[[x r] t] f]. destruct Hs as [Hr Hf].
  destruct Hk as [K1 [K2 K3]]. unfold fitness_activity.
  destruct (py_index ACTIVITIES i) eqn:E1;
    [|exfalso; refine (proj2 (py_index_some_iff _ _) _ E1);
      change (length ACTIVITIES) with 11%nat; lia].
  destruct (py_index ROOMS r) eqn:E2;
    [|exfalso; exact (proj2 (py_index_some_iff _ _) Hr E2)].
  destruct (py_index FACILITATORS f) eqn:E3;
    [|exfalso; exact (proj2 (py_index_some_iff _ _) Hf E3)].
  destruct (dict_get pair_eqb (t, r) _) eqn:E4; [|contradiction].
  destruct (dict_get pair_eqb (t, f) _) eqn:E5; [|contradiction].
  destruct (dict_get Z.eqb f _) eqn:E6; [discriminate | contradiction].
Qed.

Lemma act_in_roman_beach_fit s i a :
  Forall gene_indexable (assignments s) -> In (i, a) (enumerate (assignments s)) ->
  act_in_roman_beach s i <> None.
Proof.
  intros Hs Hin. destruct (enumerate_gene _ i a Hin) as [_ [E Ha]].
  rewrite Forall_forall in Hs. specialize (Hs a Ha).
  unfold act_in_roman_beach; rewrite E.
  destruct a as [[[x r] t] f]. destruct Hs as [Hr _].
  destruct (py_index ROOMS r) eqn:E2;
    [discriminate | exfalso; exact (proj2 (py_index_some_iff _ _) Hr E2)].
Qed.

Lemma facilitator_slots_fitness_fit s acc it :
  Forall gene_indexable (assignments s) -> facilitator_slots_fitness s acc it <> None.
Proof.
  intros Hs. destruct it as [f slots]. unfold facilitator_slots_fitness.
  apply fold_opt_total. intros b [t1 t2] _. unfold consecutive_fitness.
  destruct (t2 - t1 =? 1); [|discriminate].
  apply fold_opt_total. intros b' [i j] Hij. apply all_pairs_in in Hij as [Hi Hj].
  apply activities_at_in in Hi as [ai Hi]. apply activities_at_in in Hj as [aj Hj].
  unfold building_pair_fitness; cbn [fst snd].
  destruct (act_in_roman_beach s i) eqn:E1;
    [|exfalso; exact (act_in_roman_beach_fit _ _ _ Hs Hi E1)].
  destruct (act_in_roman_beach s j) eqn:E2; [discriminate|].
  exfalso; exact (act_in_roman_beach_fit _ _ _ Hs Hj E2).
Qed.

Lemma room_time_of_fit s i :
  Forall gene_indexable (assignments s) -> 0 <= i < Z.of_nat (length (assignments s)) ->
  exists r t, room_time_of s i = Some (r, t) /\ - num_rooms <= r < num_rooms.
Proof.
  intros Hf Hi. unfold room_time_of. rewrite py_index_nonneg by lia.
  destruct (Z.ltb_spec i (Z.of_nat (length (assignments s)))); [|lia].
  destruct (nth_error (assignments s) (Z.to_nat i)) as [[[[a r] t] f]|] eqn:E.
  - exists r, t; split; [reflexivity|].
    rewrite Forall_forall in Hf. apply nth_error_In in E. apply Hf in E as [Hr _]. exact Hr.
  - apply nth_error_None in E. lia.
Qed.

Lemma sla_activity_indices :
  activity_index "SLA101A" = Some 0 /\ activity_index "SLA101B" = Some 1 /\
  activity_index "SLA191A" = Some 2 /\ activity_index "SLA191B" = Some 3.
Proof. vm_compute. repeat split. Qed.

Lemma sla_fitness_fit s acc :
  (4 <= length (assignments s))%nat -> Forall gene_indexable (assignments s) ->
  sla_fitness s acc <> None.
Proof.
  intros Hl Hs. unfold sla_fitness, sla_sections.
  destruct sla_activity_indices as [A1 [A2 [A3 A4]]]. rewrite A1, A2, A3, A4.
  destruct (room_time_of_fit s 0 Hs ltac:(lia)) as [r1 [t1 [R1 H1]]].
  destruct (room_time_of_fit s 1 Hs ltac:(lia)) as [r2 [t2 [R2 H2]]].
  destruct (room_time_of_fit s 2 Hs ltac:(lia)) as [r3 [t3 [R3 H3]]].
  destruct (room_time_of_fit s 3 Hs ltac:(lia)) as [r4 [t4 [R4 H4]]].
  rewrite R1, R2, R3, R4. cbn [fst snd].
  apply fold_opt_total. intros b c Hc. unfold sla_combos in Hc.
  assert (Hc' : exists ta ra tb rb, c = ((ta, ra), (tb, rb)) /\
            - num_rooms <= ra < num_rooms /\ - num_rooms <= rb < num_rooms).
  { destruct Hc as [<-|[<-|[<-|[<-|[]]]]]; do 4 eexists;
      (split; [reflexivity | split; assumption]). }
  clear Hc. destruct Hc' as [ta [ra [tb [rb [-> [Ha Hb]]]]]].
  unfold sla_combo_fitness.
  destruct (Z.abs (ta - tb) =? 1); [|destruct (_ =? 2); [discriminate|];
                                       destruct (_ =? 0); discriminate].
  destruct (py_index ROOMS ra) eqn:E1; [|exfalso; exact (proj2 (py_index_some_iff _ _) Ha E1)].
  destruct (py_index ROOMS rb) eqn:E2;
    [discriminate | exfalso; exact (proj2 (py_index_some_iff _ _) Hb E2)].
Qed.

(** [calculate_fitness] returns a value exactly for the schedules with 4
    to 11 genes whose room and facilitator indices are valid Python list
    indices (negative ones included); it raises on all others: an
    [IndexError] on [ACTIVITIES[11]] for a twelfth gene, on
    [schedule.assignments[3]] (SLA191B) for fewer than four genes, or on
    [ROOMS] / [FACILITATORS] for an index out of range.  The time index is
    never checked.  [get_constraint_violations] raises on the same schedules. *)
Theorem calculate_fitness_defined_iff s :
  (calculate_fitness s <> None <->
   (4 <= length (assignments s) <= 11)%nat /\ Forall gene_indexable (assignments s)) /\
  (get_constraint_violations s <> None <-> calculate_fitness s <> None).
Proof.
  split; [|rewrite calculate_fitness_weighted;
           destruct (get_constraint_violations s); cbn [option_map];
           split; intros H; first [discriminate | contradiction]].
  split.
  - intros H. unfold calculate_fitness in H.
    destruct (fold_opt (fitness_activity (build_lookups s)) _ 0) as [f1|] eqn:E1;
      [|contradiction].
    destruct (fold_opt (facilitator_slots_fitness s) _ f1) as [f2|] eqn:E2; [|contradiction].
    pose proof (fold_opt_some_each _ _ _ _ E1) as Each.
    assert (Hg : forall i x r t f, In (i, (x, r, t, f)) (enumerate (assignments s)) ->
              py_index ACTIVITIES i <> None /\ py_index ROOMS r <> None /\
              py_index FACILITATORS f <> None).
    { intros i x r t f Hin. destruct (Each _ Hin) as [b Hb].
      exact (fitness_activity_indices _ _ _ _ _ _ _ Hb). }
    split; [split|].
    + unfold sla_fitness, sla_sections in H.
      destruct sla_activity_indices as [A1 [A2 [A3 A4]]]. rewrite A1, A2, A3, A4 in H.
      cbv beta iota in H.
      destruct (room_time_of s 0); [|exfalso; apply H; reflexivity].
      destruct (room_time_of s 1); [|exfalso; apply H; reflexivity].
      destruct (room_time_of s 2); [|exfalso; apply H; reflexivity].
      destruct (room_time_of s 3) eqn:R; [|exfalso; apply H; reflexivity].
      unfold room_time_of in R.
      destruct (py_index (assignments s) 3) eqn:P; [|discriminate].
      assert (HP : py_index (assignments s) 3 <> None) by (rewrite P; discriminate).
      apply py_index_some_iff in HP. lia.
    + destruct (Nat.le_gt_cases (length (assignments s)) 11) as [Hle|Hgt]; [exact Hle|].
      exfalso. destruct (nth_error (assignments s) 11) as [[[[x r] t] f]|] eqn:N;
        [|apply nth_error_None in N; lia].
      pose proof (enumerate_from_nth 0 _ _ _ N) as Hin. cbn [Z.of_nat Z.add] in Hin.
      destruct (Hg _ _ _ _ _ Hin) as [HA _]. apply py_index_some_iff in HA.
      change (length ACTIVITIES) with 11%nat in HA. lia.
    + apply Forall_forall. intros [[[x r] t] f] Ha.
      apply In_nth_error in Ha as [n Hn].
      pose proof (enumerate_from_nth 0 _ _ _ Hn) as Hin.
      destruct (Hg _ _ _ _ _ Hin) as [_ [HR HF]].
      apply py_index_some_iff in HR, HF. split; assumption.
  - intros [[Hl4 Hl11] Hs]. unfold calculate_fitness.
    destruct (fold_opt (fitness_activity (build_lookups s)) _ 0) as [f1|] eqn:E1.
    2: { exfalso; revert E1; apply fold_opt_total; intros b p Hp.
         apply fitness_activity_fit; assumption. }
    destruct (fold_opt (facilitator_slots_fitness s) _ f1) as [f2|] eqn:E2.
    2: { exfalso; revert E2; apply fold_opt_total; intros b it _.
         apply facilitator_slots_fitness_fit; assumption. }
    apply sla_fitness_fit; assumption.
Qed.

Lemma calculate_fitness_defined_iff_witness :
  calculate_fitness {| assignments := repeat (0, -9, 7, -10) 11 |} <> None /\
  calculate_fitness (Schedule_init 3) = None.
Proof.
  split.
  - apply (proj2 (proj1 (calculate_fitness_defined_iff _))). split; [cbn; lia|].
    apply Forall_forall; intros a Ha. apply repeat_spec in Ha; subst a.
    unfold gene_indexable, num_rooms, num_facilitators; cbn; lia.
  - destruct (calculate_fitness (Schedule_init 3)) as [f|] eqn:E; [|reflexivity].
    exfalso.
    destruct (proj1 (proj1 (calculate_fitness_defined_iff (Schedule_init 3)))
                ltac:(rewrite E; discriminate)) as [[H _] _].
    cbn in H. lia.
Defined.

Lemma map_opt_in_rev {A B} (f : A -> option B) l l' y :
  map_opt f l = Some l' -> In y l' -> exists x, In x l /\ f x = Some y.
Proof.
  revert l'; induction l as [|x l IH]; intros l' H Hy; cbn in H.
  - injection H as <-; destruct Hy.
  - destruct (f x) as [z|] eqn:Ez; [|discriminate].
    destruct (map_opt f l) as [zs|]; [|discriminate]. injection H as <-.
    destruct Hy as [<-|Hy]; [exists x; split; [left; reflexivity | exact Ez]|].
    destruct (IH zs eq_refl Hy) as [x' [Hx' E]]. exists x'; split; [right; exact Hx' | exact E].
Qed.

Lemma py_index_in {A} (l : list A) i x : py_index l i = Some x -> In x l.
Proof.
  unfold py_index. intros H.
  destruct (_ && _); [eapply nth_error_In; exact H|].
  destruct (_ && _); [eapply nth_error_In; exact H | discriminate].
Qed.

Lemma tournament_selection_in cfg pop scores g s g' :
  tournament_selection cfg pop scores g = Some (s, g') -> In s pop.
Proof.
  unfold tournament_selection.
  destruct (rng_choice (length pop) (TOURNAMENT_SIZE cfg) g) as [[idxs g1]|]; [|discriminate].
  destruct (py_max_key _ idxs) as [b|]; [|discriminate].
  destruct (py_index pop b) as [sb|] eqn:Ep; [|discriminate].
  intros H; injection H as <- _. eapply py_index_in; exact Ep.
Qed.

(** ** Properties of chromosomes kept by the variation operators *)

Section Invariant.
Variable Pr : Schedule -> Prop.
Hypothesis Pr_mutate : forall s rate g, Pr s -> Pr (fst (mutate s rate g)).
Hypothesis Pr_crossover : forall p1 p2 g, Pr p1 -> Pr p2 ->
  Pr (fst (fst (crossover p1 p2 g))) /\ Pr (snd (fst (crossover p1 p2 g))).

Lemma breed_keeps cfg r pop scores rate acc g res g' :
  Forall Pr pop -> Forall Pr acc ->
  breed cfg r pop scores rate acc g = Some (res, g') -> Forall Pr res.
Proof.
  intros Hpop. revert acc g; induction r as [r IH] using lt_wf_ind; intros acc g Hacc H.
  destruct r as [|r']; cbn [breed] in H.
  - injection H as <- _. exact Hacc.
  - destruct (tournament_selection cfg pop scores g) as [[p1 g1]|] eqn:E1; [|discriminate].
    destruct (tournament_selection cfg pop scores g1) as [[p2 g2]|] eqn:E2; [|discriminate].
    apply tournament_selection_in in E1, E2. rewrite Forall_forall in Hpop.
    pose proof (Pr_crossover p1 p2 g2 (Hpop p1 E1) (Hpop p2 E2)) as [Hc1 Hc2].
    destruct (crossover p1 p2 g2) as [[c1 c2] g3]; cbn [fst snd] in Hc1, Hc2.
    pose proof (Pr_mutate c1 rate g3 Hc1) as Hm1.
    destruct (mutate c1 rate g3) as [c1' g4]; cbn [fst] in Hm1.
    pose proof (Pr_mutate c2 rate g4 Hc2) as Hm2.
    destruct (mutate c2 rate g4) as [c2' g5]; cbn [fst] in Hm2.
    rewrite <- Forall_forall in Hpop.
    destruct r' as [|r''].
    + cbn iota in H; injection H as <- _.
      apply Forall_app; split; [exact Hacc | apply Forall_cons; [exact Hm1 | apply Forall_nil]].
    + apply IH in H; [exact H | lia |].
      apply Forall_app; split; [apply Forall_app; split; [exact Hacc|] |];
        (apply Forall_cons; [assumption | apply Forall_nil]).
Qed.

Lemma ga_iter_keeps cfg st o st' :
  Forall Pr (population st) -> ga_iter cfg st = Some o ->
  o = OConverged st' \/ o = OContinue st' \/ o = OLimit st' -> Forall Pr (population st').
Proof.
  intros Hpop Hit Ho. destruct Ho as [->|Ho].
  - destruct (ga_iter_out cfg st _ Hit) as [sc [b [w [_ [_ [_ Hout]]]]]].
    destruct (Hout st' (or_introl eq_refl)) as [_ [_ [_ [_ [Hc _]]]]].
    rewrite (proj1 (Hc eq_refl)). exact Hpop.
  - assert (Hit' : ga_iter cfg st = Some (OContinue st') \/ ga_iter cfg st = Some (OLimit st'))
      by (destruct Ho as [->| ->]; [left | right]; exact Hit).
    destruct (ga_iter_inv cfg st st' Hit')
      as [sc [b [w [elites [g [_ [_ [_ [_ [He [Hb _]]]]]]]]]]].
    refine (breed_keeps cfg _ _ _ _ _ _ _ _ Hpop _ Hb).
    apply Forall_forall. intros x Hx. destruct (map_opt_in_rev _ _ _ _ He Hx) as [j [_ Hj]].
    apply py_index_in in Hj. rewrite Forall_forall in Hpop. exact (Hpop x Hj).
Qed.

Lemma ga_run_keeps cfg st stf h :
  Forall Pr (population st) -> ga_run cfg st stf h -> Forall Pr (population stf).
Proof.
  intros Hpop Hrun. revert Hpop.
  induction Hrun as [st st' Hit|st st' Hit|st st' stf h Hit Hrun IH]; intros Hpop.
  - exact (ga_iter_keeps cfg st _ st' Hpop Hit (or_introl eq_refl)).
  - exact (ga_iter_keeps cfg st _ st' Hpop Hit (or_intror (or_intror eq_refl))).
  - exact (IH (ga_iter_keeps cfg st _ st' Hpop Hit (or_intror (or_introl eq_refl)))).
Qed.
End Invariant.










Lemma run_population_length cfg st stf h :
  length (population st) = POPULATION_SIZE cfg -> ga_run cfg st stf h ->
  length (population stf) = POPULATION_SIZE cfg /\ population stf <> [].
Proof.
  intros Hl Hrun. revert Hl.
  induction Hrun as [st st' Hit|st st' Hit|st st' stf h Hit Hrun IH]; intros Hl.
  - destruct (ga_iter_out cfg st _ Hit) as [sc [b [w [Hsc [Hb [_ Hout]]]]]].
    destruct (Hout st' (or_introl eq_refl)) as [_ [_ [_ [_ [Hc _]]]]].
    rewrite (proj1 (Hc eq_refl)). split; [exact Hl|].
    intros E; rewrite E in Hsc; cbn in Hsc; injection Hsc as <-; discriminate Hb.
  - assert (Hne : population st <> []).
    { destruct (ga_iter_out cfg st _ Hit) as [sc [b [w [Hsc [Hb _]]]]].
      intros E; rewrite E in Hsc; cbn in Hsc; injection Hsc as <-; discriminate Hb. }
    destruct (ga_iter_inv cfg st st' (or_intror Hit))
      as [sc [b [w [elites [g [Hsc [_ [_ [_ [Hel [Hbr _]]]]]]]]]]].
    apply breed_length in Hbr.
    destruct (map_opt_nth _ _ _ Hel) as [Hle _].
    destruct (map_opt_nth _ _ _ Hsc) as [Hls _].
    pose proof (length_py_slice_from (- Z.of_nat (Nat.div (POPULATION_SIZE cfg) 10))
                  (argsort sc)) as Hs.
    rewrite length_argsort in Hs. unfold elite_indices in Hle.
    assert (Hlen : length (population st') = POPULATION_SIZE cfg) by lia.
    split; [exact Hlen|]. intros E. rewrite E in Hlen. cbn in Hlen.
    apply Hne. apply length_zero_iff_nil. lia.
  - apply IH.
    destruct (ga_iter_inv cfg st st' (or_introl Hit))
      as [sc [b [w [elites [g [Hsc [_ [_ [_ [Hel [Hbr _]]]]]]]]]]].
    apply breed_length in Hbr.
    destruct (map_opt_nth _ _ _ Hel) as [Hle _].
    destruct (map_opt_nth _ _ _ Hsc) as [Hls _].
    pose proof (length_py_slice_from (- Z.of_nat (Nat.div (POPULATION_SIZE cfg) 10))
                  (argsort sc)) as Hs.
    rewrite length_argsort in Hs. unfold elite_indices in Hle. lia.
Qed.

(** After the loop, the final evaluation ([final_fitness_scores],
    [np.argmax], [population[best_idx]], [final_fitness_scores[best_idx]])
    never raises: every chromosome of the final population is well formed
    and the population is not empty. *)
Theorem final_result_defined cfg g stf h :
  ga_run cfg (ga_init cfg g) stf h -> final_result stf <> None.
Proof.
  intros Hrun.
  assert (Hok : Forall schedule_ok (population stf)).
  { refine (ga_run_keeps schedule_ok _ _ cfg _ stf h _ Hrun).
    - intros s rate g' Hs; apply mutate_ok; exact Hs.
    - intros p1 p2 g' H1 H2; apply crossover_ok; assumption.
    - unfold ga_init. pose proof (proj2 (random_population_ok (POPULATION_SIZE cfg) g)) as H.
      destruct (random_population _ g) as [pop g']. exact H. }
  assert (Hne : population stf <> []).
  { refine (proj2 (run_population_length cfg _ stf h _ Hrun)). unfold ga_init.
    pose proof (proj1 (random_population_ok (POPULATION_SIZE cfg) g)) as H.
    destruct (random_population _ g) as [pop g']. exact H. }
  unfold final_result.
  destruct (map_opt calculate_fitness (population stf)) as [sc|] eqn:Esc.
  2: { exfalso; revert Esc; apply map_opt_total; intros s Hs.
       apply calculate_fitness_total. rewrite Forall_forall in Hok; apply Hok, Hs. }
  destruct (map_opt_nth _ _ _ Esc) as [Hls _].
  destruct (np_argmax sc) as [r|] eqn:Ea.
  2: { destruct sc; [|discriminate]. cbn in Hls. destruct (population stf); [|discriminate].
       exfalso; apply Hne; reflexivity. }
  destruct (np_argmax_spec sc r Ea) as [Hr [m [Hm _]]].
  destruct (py_index (population stf) r) as [s|] eqn:Es.
  2: { exfalso; refine (py_index_total _ _ _ Es). rewrite <- Hls; exact Hr. }
  rewrite Hm. discriminate.
Qed.

Lemma final_result_defined_witness :
  exists stf h, ga_run quick_config (ga_init quick_config sample_rng) stf h /\
    final_result stf <> None.
Proof.
  destruct quick_run as [stf E]. pose proof (run_converged _ _ _ E) as Hr.
  exact (ex_intro _ stf (ex_intro _ Converged
    (conj Hr (final_result_defined quick_config sample_rng stf Converged Hr)))).
Defined.

Ltac eval_vkey_eqb :=
  repeat match goal with
         | |- context [vkey_eqb ?a ?b] =>
             let e := eval vm_compute in (vkey_eqb a b) in change (vkey_eqb a b) with e
         end; cbv beta iota.

Lemma counts_incr k v :
  room_size_count (incr k v) = room_size_count v +
    (match k with room_too_small | room_too_large_3x | room_too_large_1_5x
                | room_good_fit => 1 | _ => 0 end) /\
  preference_count (incr k v) = preference_count v +
    (match k with facilitator_preferred | facilitator_other
                | facilitator_unlisted => 1 | _ => 0 end) /\
  slot_count (incr k v) = slot_count v +
    (match k with facilitator_single_slot | facilitator_double_booked => 1 | _ => 0 end).
Proof.
  destruct k; unfold room_size_count, preference_count, slot_count, incr;
    eval_vkey_eqb; lia.
Qed.

(** Nothing but the per-activity loop touches the three groups. *)
Definition counts_same (v v' : violations) : Prop :=
  room_size_count v' = room_size_count v /\ preference_count v' = preference_count v /\
  slot_count v' = slot_count v.

Lemma fold_opt_counts_same {A} (step : violations -> A -> option violations) l v v' :
  (forall v x v', step v x = Some v' -> counts_same v v') ->
  fold_opt step l v = Some v' -> counts_same v v'.
Proof.
  intros Hs; revert v; induction l as [|x l IH]; intros v H; cbn in H.
  - injection H as <-. split; [|split]; reflexivity.
  - destruct (step v x) as [v1|] eqn:E; [|discriminate].
    destruct (Hs _ _ _ E) as [A1 [A2 A3]]. destruct (IH v1 H) as [B1 [B2 B3]].
    split; [|split]; congruence.
Qed.

Ltac counts_step :=
  repeat match goal with
         | |- context [room_size_count (incr ?k ?v)] =>
             destruct (counts_incr k v) as [R1 [R2 R3]]; rewrite R1, R2, R3; clear R1 R2 R3
         | |- context [preference_count (incr ?k ?v)] =>
             destruct (counts_incr k v) as [R1 [R2 R3]]; rewrite R1, R2, R3; clear R1 R2 R3
         | |- context [slot_count (incr ?k ?v)] =>
             destruct (counts_incr k v) as [R1 [R2 R3]]; rewrite R1, R2, R3; clear R1 R2 R3
         end.

Lemma slots_counts_same s v it v' :
  facilitator_slots_violations s v it = Some v' -> counts_same v v'.
Proof.
  destruct it as [f slots]; unfold facilitator_slots_violations.
  apply fold_opt_counts_same. intros v1 [t1 t2] v2; unfold consecutive_violations.
  destruct (t2 - t1 =? 1).
  - intros H. apply fold_opt_counts_same in H.
    + destruct H as [A1 [A2 A3]]. unfold counts_same in *. rewrite A1, A2, A3. counts_step.
      split; [|split]; lia.
    + intros v3 [i j] v4; unfold building_pair_violations; cbn [fst snd].
      destruct (act_in_roman_beach s i); [|discriminate].
      destruct (act_in_roman_beach s j); [|discriminate].
      intros E; injection E as <-. unfold counts_same.
      split_ifs; counts_step; repeat split; lia.
  - intros E; injection E as <-. split; [|split]; reflexivity.
Qed.

Lemma sla_counts_same s v v' : sla_violations s v = Some v' -> counts_same v v'.
Proof.
  unfold sla_violations. destruct (sla_sections s) as [[[[a b] c] d]|]; [|discriminate].
  cbv zeta. intros H. apply fold_opt_counts_same in H.
  - destruct H as [A1 [A2 A3]]. unfold counts_same in *. rewrite A1, A2, A3.
    split_ifs; counts_step; repeat split; lia.
  - intros v1 [[t191 r191] [t101 r101]] v2; unfold sla_combo_violations.
    destruct (Z.abs (t191 - t101) =? 1).
    + destruct (py_index ROOMS r191); [|discriminate].
      destruct (py_index ROOMS r101); [|discriminate].
      intros E; injection E as <-. unfold counts_same. split_ifs; counts_step;
        repeat split; lia.
    + intros E. destruct (Z.abs (t191 - t101) =? 2); [|destruct (Z.abs (t191 - t101) =? 0)];
        injection E as <-; unfold counts_same; counts_step; repeat split; lia.
Qed.

(** Every list stored in a [dict_append]ed dict is non-empty. *)
Lemma dict_get_nonempty {K} (keqb : K -> K -> bool) k (d : dict K (list Z)) l :
  Forall (fun kv => snd kv <> []) d -> dict_get keqb k d = Some l -> l <> [].
Proof.
  induction d as [|[k' l'] d IH]; cbn; [discriminate|]. intros Hf.
  inversion Hf as [|? ? H1 H2]; subst.
  destruct (keqb k k'); [intros E; injection E as <-; exact H1 | apply IH, H2].
Qed.

Lemma dict_set_nonempty {K} (keqb : K -> K -> bool) k l (d : dict K (list Z)) :
  l <> [] -> Forall (fun kv => snd kv <> []) d -> Forall (fun kv => snd kv <> []) (dict_set keqb k l d).
Proof.
  intros Hl; induction d as [|[k' l'] d IH]; cbn; intros Hf.
  - apply Forall_cons; [exact Hl | apply Forall_nil].
  - inversion Hf as [|? ? H1 H2]; subst.
    destruct (keqb k k'); apply Forall_cons; auto.
Qed.

Lemma build_lookups_tfa_nonempty s :
  Forall (fun kv => snd kv <> []) (time_facilitator_activities (build_lookups s)).
Proof.
  unfold build_lookups.
  assert (H : forall l lk, Forall (fun kv => snd kv <> []) (time_facilitator_activities lk) ->
            Forall (fun kv => snd kv <> []) (time_facilitator_activities (fold_left lookups_step l lk))).
  { induction l as [|[i [[[a r] t] f]] l IH]; intros lk Hlk; cbn [fold_left]; [exact Hlk|].
    apply IH. unfold lookups_step, dict_append; cbn [time_facilitator_activities].
    apply dict_set_nonempty; [|exact Hlk]. destruct (dict_get _ _ _); intros E; symmetry in E; revert E; apply app_cons_not_nil. }
  apply H, Forall_nil.
Qed.

Lemma violations_activity_counts s v p v' :
  violations_activity (build_lookups s) v p = Some v' ->
  room_size_count v' = room_size_count v + 1 /\ preference_count v' = preference_count v + 1 /\
  slot_count v' = slot_count v + 1.
Proof.
  destruct p as [ai [[[x r] t] fa]]; unfold violations_activity.
  destruct (py_index ACTIVITIES ai) as [act|]; [|discriminate].
  destruct (py_index ROOMS r) as [room|]; [|discriminate].
  destruct (py_index FACILITATORS fa) as [fac|]; [|discriminate].
  destruct (dict_get pair_eqb (t, r) _) as [tr|]; [|discriminate].
  destruct (dict_get pair_eqb (t, fa) _) as [tf|] eqn:Etf; [|discriminate].
  destruct (dict_get Z.eqb fa _) as [load|]; [|discriminate].
  intros E; injection E as <-.
  pose proof (dict_get_nonempty _ _ _ _ (build_lookups_tfa_nonempty s) Etf) as Hne.
  assert (Htf : 1 <= Z.of_nat (length tf)).
  { destruct tf; [contradiction Hne; reflexivity | cbn [length]; lia]. }
  unfold total_load_count.
  destruct (Z.of_nat (length tf) =? 1) eqn:E1;
    [|destruct (Z.ltb_spec 1 (Z.of_nat (length tf))); [|apply Z.eqb_neq in E1; lia]];
    split_ifs; counts_step; repeat split; lia.
Qed.

Lemma fold_violations_activity_counts s l v v' :
  fold_opt (violations_activity (build_lookups s)) l v = Some v' ->
  room_size_count v' = room_size_count v + Z.of_nat (length l) /\
  preference_count v' = preference_count v + Z.of_nat (length l) /\
  slot_count v' = slot_count v + Z.of_nat (length l).
Proof.
  revert v; induction l as [|x l IH]; intros v H; cbn in H.
  - injection H as <-. cbn [length Z.of_nat]. split; [|split]; lia.
  - destruct (violations_activity _ v x) as [v1|] eqn:E; [|discriminate].
    destruct (violations_activity_counts _ _ _ _ E) as [A1 [A2 A3]].
    destruct (IH v1 H) as [B1 [B2 B3]]. cbn [length]. split; [|split]; lia.
Qed.

(** In [get_constraint_violations], every activity is counted exactly once
    in each per-activity group: once among [room_too_small],
    [room_too_large_3x], [room_too_large_1.5x] and [room_good_fit]; once
    among [facilitator_preferred], [facilitator_other] and
    [facilitator_unlisted]; and once among [facilitator_single_slot] and
    [facilitator_double_booked] (its own slot list holds it, so the
    [elif len > 1] never falls through). *)
Theorem violations_group_totals s v :
  get_constraint_violations s = Some v ->
  v room_too_small + v room_too_large_3x + v room_too_large_1_5x + v room_good_fit =
    Z.of_nat (length (assignments s)) /\
  v facilitator_preferred + v facilitator_other + v facilitator_unlisted =
    Z.of_nat (length (assignments s)) /\
  v facilitator_single_slot + v facilitator_double_booked = Z.of_nat (length (assignments s)).
Proof.
  unfold get_constraint_violations.
  destruct (fold_opt (violations_activity (build_lookups s)) _ violations0) as [v1|] eqn:E1;
    [|discriminate].
  destruct (fold_opt (facilitator_slots_violations s) _ v1) as [v2|] eqn:E2; [|discriminate].
  intros E3.
  destruct (fold_violations_activity_counts _ _ _ _ E1) as [A1 [A2 A3]].
  unfold enumerate in A1, A2, A3. rewrite length_enumerate_from in A1, A2, A3.
  destruct (fold_opt_counts_same _ _ _ _ (slots_counts_same s) E2) as [B1 [B2 B3]].
  destruct (sla_counts_same _ _ _ E3) as [C1 [C2 C3]].
  assert (Z0 : room_size_count violations0 = 0 /\ preference_count violations0 = 0 /\
            slot_count violations0 = 0) by (split; [|split]; reflexivity).
  destruct Z0 as [Z1 [Z2 Z3]]. rewrite Z1 in A1. rewrite Z2 in A2. rewrite Z3 in A3.
  unfold room_size_count, preference_count, slot_count in A1, A2, A3, B1, B2, B3, C1, C2, C3.
  split; [|split]; lia.
Qed.

Lemma violations_group_totals_witness :
  exists v, get_constraint_violations tyler_two_schedule = Some v /\
    v room_too_small + v room_too_large_3x + v room_too_large_1_5x + v room_good_fit =
      Z.of_nat (length (assignments tyler_two_schedule)) /\
    v facilitator_preferred + v facilitator_other + v facilitator_unlisted =
      Z.of_nat (length (assignments tyler_two_schedule)) /\
    v facilitator_single_slot + v facilitator_double_booked =
      Z.of_nat (length (assignments tyler_two_schedule)).
Proof.
  destruct (get_constraint_violations tyler_two_schedule) as [v|] eqn:E.
  2: { exfalso. assert (Hc : calculate_fitness tyler_two_schedule <> None)
         by (vm_compute; discriminate).
       rewrite calculate_fitness_weighted, E in Hc. apply Hc; reflexivity. }
  exists v. split; [reflexivity|]. exact (violations_group_totals _ _ E).
Defined.

(** The text fallback of [print_fitness_chart] prints each history row at
    most once, in increasing order, and only rows that exist: row [i] is
    printed exactly when [i < 10], or [n > 20] and [i] is among the last 10.
    So with 11 to 20 generations, rows 10 to [n - 1] are never shown. *)
Theorem chart_rows_spec n :
  StronglySorted lt (chart_rows n) /\
  (forall i, In i (chart_rows n) <-> (i < n /\ (i < 10 \/ (20 < n /\ n - 10 <= i)))%nat).
Proof.
  unfold chart_rows. split.
  - assert (Hs : forall a k, StronglySorted lt (seq a k)).
    { intros a k; revert a; induction k as [|k IH]; intros a; cbn; constructor; [apply IH|].
      apply Forall_forall; intros x Hx; apply in_seq in Hx; lia. }
    destruct (Nat.ltb_spec 20 n) as [Hn|Hn]; [|rewrite app_nil_r; apply Hs].
    assert (Happ : forall l1 l2, StronglySorted lt l1 -> StronglySorted lt l2 ->
              (forall x y, In x l1 -> In y l2 -> x < y)%nat -> StronglySorted lt (l1 ++ l2)).
    { induction l1 as [|x l1 IH]; intros l2 H1 H2 H; cbn; [exact H2|].
      inversion H1 as [|? ? H1' Hx]; subst. constructor.
      - apply IH; [exact H1' | exact H2 | intros; apply H; [right|]; assumption].
      - apply Forall_app; split; [exact Hx|]. apply Forall_forall; intros y Hy.
        apply H; [left; reflexivity | exact Hy]. }
    apply Happ; [apply Hs | apply Hs|]. intros x y Hx Hy.
    apply in_seq in Hx, Hy. lia.
  - intros i. rewrite in_app_iff, in_seq.
    destruct (Nat.ltb_spec 20 n) as [Hn|Hn]; [rewrite in_seq | cbn [In]]; lia.
Qed.

Lemma insert_by_key_perm p l : Permutation (insert_by_key p l) (p :: l).
Proof.
  induction l as [|q t IH]; cbn; [reflexivity|].
  destruct (key_ltb (ps_key q) (ps_key p)); [|reflexivity].
  rewrite IH. apply perm_swap.
Qed.

Lemma sort_by_key_perm l : Permutation (sort_by_key l) l.
Proof.
  induction l as [|p t IH]; cbn; [reflexivity|].
  rewrite insert_by_key_perm, IH; reflexivity.
Qed.

Definition time_le (p q : Z * assignment) : Prop := time_of (snd p) <= time_of (snd q).

Lemma key_ltb_time p q :
  (key_ltb (ps_key q) (ps_key p) = true -> time_le q p) /\
  (key_ltb (ps_key q) (ps_key p) = false -> time_le p q).
Proof.
  destruct p as [i [[[x r] t] f]], q as [j [[[y r'] t'] f']].
  unfold key_ltb, time_le; cbn.
  destruct (Z.ltb_spec t' t), (Z.eqb_spec t' t), (Z.ltb_spec r' r); cbn; split; intros; try lia;
    discriminate.
Qed.

Lemma insert_by_key_sorted p l :
  StronglySorted time_le l -> StronglySorted time_le (insert_by_key p l).
Proof.
  induction l as [|q t IH]; intros Hs; cbn.
  - repeat constructor.
  - inversion Hs as [|? ? Ht Hf]; subst.
    destruct (key_ltb (ps_key q) (ps_key p)) eqn:E.
    + constructor; [apply IH, Ht|].
      eapply Permutation_Forall; [symmetry; apply insert_by_key_perm|].
      constructor; [apply (proj1 (key_ltb_time p q)), E | exact Hf].
    + apply (proj2 (key_ltb_time p q)) in E.
      constructor; [exact Hs|]. constructor; [exact E|].
      eapply Forall_impl; [|exact Hf]. unfold time_le in *; intros; lia.
Qed.

Lemma sort_by_key_sorted l : StronglySorted time_le (sort_by_key l).
Proof.
  induction l as [|p t IH]; cbn; [constructor|]. apply insert_by_key_sorted, IH.
Qed.

Lemma ps_lines_spec c l out :
  StronglySorted time_le l -> Forall (fun p => c <= time_of (snd p)) l ->
  ps_lines c l = Some out ->
  ps_rows out = map fst l /\ StronglySorted Z.lt (ps_headers out) /\
  Forall (fun h => c < h) (ps_headers out) /\
  (forall t, In t (ps_headers out) <-> In t (map (fun p => time_of (snd p)) l) /\ t <> c).
Proof.
  revert c out; induction l as [|[i [[[x r] t] f]] l IH]; intros c out Hs Hc H; cbn in H.
  - injection H as <-. cbn. repeat split; try constructor; intros; tauto.
  - inversion Hs as [|? ? Hs' Hf]; subst. inversion Hc as [|? ? Hct Hc']; subst.
    cbn [snd time_of] in Hct.
    destruct (Z.eqb_spec t c) as [Et|Et]; cbn [negb] in H.
    + subst t.
      destruct (py_index ACTIVITIES i); [|discriminate].
      destruct (py_index ROOMS r); [|discriminate].
      destruct (py_index FACILITATORS f); [|discriminate].
      destruct (ps_lines c l) as [rest|] eqn:E; [|discriminate].
      injection H as <-.
      destruct (IH c rest Hs' Hc' E) as [HR [HS [HF HM]]].
      unfold ps_rows, ps_headers in *; cbn [flat_map app map].
      rewrite HR. split; [reflexivity|]. split; [exact HS|]. split; [exact HF|].
      intros u; split; intros Hin.
      * destruct (proj1 (HM u) Hin) as [HA HB]. split; [right; exact HA | exact HB].
      * destruct Hin as [[E'|Hin] Hne]; [cbn in E'; congruence|]. apply HM; tauto.
    + destruct (py_index TIMES t); [|discriminate].
      destruct (py_index ACTIVITIES i); [|discriminate].
      destruct (py_index ROOMS r); [|discriminate].
      destruct (py_index FACILITATORS f); [|discriminate].
      destruct (ps_lines t l) as [rest|] eqn:E; [|discriminate].
      injection H as <-.
      assert (Hc2 : Forall (fun p => t <= time_of (snd p)) l)
        by (eapply Forall_impl; [|exact Hf]; unfold time_le; cbn; intros; lia).
      destruct (IH t rest Hs' Hc2 E) as [HR [HS [HF HM]]].
      unfold ps_rows, ps_headers in *; cbn [flat_map app map].
      rewrite HR. split; [reflexivity|]. split; [|split].
      * constructor; [exact HS | exact HF].
      * constructor; [lia|]. eapply Forall_impl; [|exact HF]. cbn; intros; lia.
      * intros u; split.
        -- intros [<-|Hin]; [split; [left; reflexivity | lia]|].
           pose proof (proj1 (Forall_forall _ _) HF u Hin) as Hu; cbn in Hu.
           apply HM in Hin. split; [right; tauto | lia].
        -- intros [[<-|Hin] Hne]; [left; reflexivity|].
           destruct (Z.eq_dec u t) as [->|Hut]; [left; reflexivity|]. right. apply HM; tauto.
Qed.

Lemma ps_lines_total c l :
  Forall (fun p => 0 <= fst p < num_activities /\ gene_ok (snd p)) l -> ps_lines c l <> None.
Proof.
  revert c; induction l as [|[i [[[x r] t] f]] l IH]; intros c Hl; cbn; [discriminate|].
  inversion Hl as [|? ? [Hi Hg] Hl']; subst. cbn [fst snd gene_ok] in Hi, Hg.
  destruct Hg as [Hr [Ht Hf]].
  assert (TI : py_index TIMES t <> None) by (apply py_index_total; exact Ht).
  assert (AI : py_index ACTIVITIES i <> None) by (apply py_index_total; exact Hi).
  assert (RI : py_index ROOMS r <> None) by (apply py_index_total; exact Hr).
  assert (FI : py_index FACILITATORS f <> None) by (apply py_index_total; exact Hf).
  destruct (negb (t =? c)).
  - destruct (py_index TIMES t); [|congruence].
    destruct (py_index ACTIVITIES i); [|congruence].
    destruct (py_index ROOMS r); [|congruence].
    destruct (py_index FACILITATORS f); [|congruence].
    destruct (ps_lines t l) eqn:E; [discriminate|]. intros _; exact (IH t Hl' E).
  - destruct (py_index ACTIVITIES i); [|congruence].
    destruct (py_index ROOMS r); [|congruence].
    destruct (py_index FACILITATORS f); [|congruence].
    destruct (ps_lines c l) eqn:E; [discriminate|]. intros _; exact (IH c Hl' E).
Qed.

Lemma map_snd_enumerate_from {A} n (l : list A) : map snd (enumerate_from n l) = l.
Proof.
  revert n; induction l as [|x l IH]; intros n; cbn; [reflexivity|]. rewrite IH; reflexivity.
Qed.

(** [print_schedule] on a well-formed schedule raises nothing, writes the
    row of every activity exactly once, and writes one header per time slot
    in use, in increasing time order: the slots of the headers are exactly
    the time indices of the genes. *)
Theorem print_schedule_by_time s :
  schedule_ok s ->
  exists out, print_schedule s = Some out /\
    Permutation (ps_rows out) (map Z.of_nat (seq 0 (length ACTIVITIES))) /\
    StronglySorted Z.lt (ps_headers out) /\
    (forall t, In t (ps_headers out) <-> In t (map time_of (assignments s))).
Proof.
  intros Hok.
  pose proof (calculate_fitness_total s Hok) as Hc.
  pose proof (calculate_fitness_weighted s) as Hw.
  destruct (calculate_fitness s) as [fit|] eqn:Ec; [|congruence].
  destruct (get_constraint_violations s) as [v|] eqn:Ev; [|discriminate].
  set (l := sort_by_key (enumerate (assignments s))).
  assert (Hgenes : Forall (fun p => 0 <= fst p < num_activities /\ gene_ok (snd p))
                          (enumerate (assignments s))).
  { apply Forall_forall; intros [i a] Hin.
    destruct (schedule_ok_gene s i a Hok Hin) as [Hi [_ Ha]]. split; [exact Hi | exact Ha]. }
  assert (Hl : Forall (fun p => 0 <= fst p < num_activities /\ gene_ok (snd p)) l)
    by (eapply Permutation_Forall; [symmetry; apply sort_by_key_perm | exact Hgenes]).
  assert (Hc1 : Forall (fun p => -1 <= time_of (snd p)) l).
  { eapply Forall_impl; [|exact Hl]. intros [i [[[x r] t] f]] [_ [_ [Ht _]]]; cbn; lia. }
  pose proof (ps_lines_total (-1) l Hl) as Ht.
  destruct (ps_lines (-1) l) as [out|] eqn:Eo; [|congruence].
  exists out. unfold print_schedule. rewrite Ec, Ev. fold l. rewrite Eo. split; [reflexivity|].
  destruct (ps_lines_spec (-1) l out (sort_by_key_sorted _) Hc1 Eo) as [HR [HS [_ HM]]].
  split; [|split; [exact HS|]].
  - rewrite HR. unfold l. rewrite (Permutation_map fst (sort_by_key_perm _)).
    unfold enumerate. rewrite enumerate_from_fst.
    destruct Hok as [Hlen _]. rewrite Hlen.
    rewrite (map_ext (fun k => 0 + Z.of_nat k) Z.of_nat) by (intros; lia). reflexivity.
  - assert (Hmap : forall t, In t (map (fun p => time_of (snd p)) l) <-> In t (map time_of (assignments s))).
    { intros t. unfold l. split; intros Hin.
      - eapply Permutation_in in Hin; [|apply Permutation_map, sort_by_key_perm].
        rewrite <- map_map in Hin. unfold enumerate in Hin. rewrite map_snd_enumerate_from in Hin. exact Hin.
      - eapply Permutation_in; [symmetry; apply Permutation_map, sort_by_key_perm|].
        rewrite <- map_map. unfold enumerate. rewrite map_snd_enumerate_from. exact Hin. }
    intros t. rewrite HM, Hmap. split; [tauto|]. intros Hin; split; [exact Hin|].
    destruct Hok as [_ Hf]. apply in_map_iff in Hin. destruct Hin as [[[[x r] t'] f] [<- Ha]].
    rewrite Forall_forall in Hf. destruct (Hf _ Ha) as [_ [Ht' _]]. cbn. lia.
Qed.

Lemma print_schedule_by_time_witness :
  schedule_ok tyler_two_schedule /\
  exists out, print_schedule tyler_two_schedule = Some out /\
    Permutation (ps_rows out) (map Z.of_nat (seq 0 (length ACTIVITIES))) /\
    StronglySorted Z.lt (ps_headers out) /\
    (forall t, In t (ps_headers out) <-> In t (map time_of (assignments tyler_two_schedule))).
Proof.
  assert (H : schedule_ok tyler_two_schedule)
    by (split; [reflexivity | repeat constructor; unfold num_rooms, num_times, num_facilitators; cbn; lia]).
  split; [exact H | apply (print_schedule_by_time tyler_two_schedule H)].
Defined.
